(** * Shared-clipboard editor: REST client and debounced save loop

    A shallow embedding of [src/lib/api.ts] (class [ApiClient]), of the copy
    of that class carried next to the editor component, and of the editor
    component [ClipboardEditor] (state, refs, timers and pending awaits).

    Asynchronous functions are programs of a free monad whose nodes are the
    places where the source talks to its environment ([fetch], [console],
    [setTimeout], React state setters, ...).  An [await] is a node that
    carries the rest of the function as its continuation, so the event loop
    below can park it and resume it later, interleaved with other handlers. *)

From Stdlib Require Import String Ascii List ZArith Bool Lia.
From ExtLib Require Import Structures.Monad Structures.MonadExc.
Import ListNotations.
Import MonadNotation.
Local Open Scope string_scope.
Local Open Scope monad_scope.

Set Implicit Arguments.
Set Warnings "-register-all".

(** ** JavaScript values the code handles *)

(** What a [throw] or a rejected promise carries.  The source only asks
    [err instanceof Error] and reads [err.message]. *)
Inductive Thrown : Type :=
| ErrorObj (message : string)
| NonError.

(** How a call or an awaited promise ends. *)
Inductive Completion (A : Type) : Type :=
| Returns (a : A)
| Throws (e : Thrown).
Arguments Throws {A} e.

(** Parsed JSON text, as [response.json()] yields it.  Strings are byte
    strings (UTF-8); numbers are kept to the integers. *)
Inductive JSONValue : Type :=
| JNull
| JBool (b : bool)
| JNum (n : Z)
| JStr (s : string)
| JArr (items : list JSONValue)
| JObj (fields : list (string * JSONValue)).

(** ** The fetch interface *)

(** The URL and the [RequestInit] members the source writes; a member the
    call leaves out is [None] (headers: the empty list). *)
Record Request : Type := {
  req_url : string;
  req_method : option string;
  req_headers : list (string * string);
  req_body : option string;
  req_mode : option string
}.

(** The members of a [Response] the source reads.  [J] is the type of parsed
    bodies: the client never looks inside a body, so it is a parameter. *)
Record Response (J : Type) : Type := {
  ok : bool;
  status : Z;
  statusText : string;
  json : Completion J
}.

(** [fetch] resolves with a response or rejects. *)
Definition FetchOutcome (J : Type) : Type := Completion (Response J).

(** The network seen from the client: what each request ends in. *)
Definition Net (J : Type) : Type := Request -> FetchOutcome J.

Inductive LogArg (J : Type) : Type :=
| LStr (s : string)
| LNum (n : Z)
| LVal (v : J).
Arguments LStr {J} s.
Arguments LNum {J} n.

Inductive Level : Type := LevelLog | LevelError.

(** What a run of a client method does to the outside, in order. *)
Inductive Event (J : Type) : Type :=
| EvFetch (r : Request)
| EvConsole (lvl : Level) (args : list (LogArg J)).
Arguments EvFetch {J} r.

(** ** Client programs *)

Inductive Prog (J A : Type) : Type :=
| Ret (a : A)
| Throw (e : Thrown)
| Fetch (r : Request) (k : FetchOutcome J -> Prog J A)
| Console (lvl : Level) (args : list (LogArg J)) (k : Prog J A).
Arguments Ret {J A} a.
Arguments Throw {J A} e.
Arguments Fetch {J A} r k.

Fixpoint prog_bind {J A B} (p : Prog J A) (f : A -> Prog J B) : Prog J B :=
  match p with
  | Ret a => f a
  | Throw e => Throw e
  | Fetch r k => Fetch r (fun o => prog_bind (k o) f)
  | Console lvl args k => Console lvl args (prog_bind k f)
  end.

(** [try { p } catch (e) { h e }] *)
Fixpoint prog_catch {J A} (p : Prog J A) (h : Thrown -> Prog J A) : Prog J A :=
  match p with
  | Ret a => Ret a
  | Throw e => h e
  | Fetch r k => Fetch r (fun o => prog_catch (k o) h)
  | Console lvl args k => Console lvl args (prog_catch k h)
  end.

#[export] Instance Monad_Prog {J} : Monad (Prog J) :=
  {| ret := fun _ a => Ret a; bind := fun _ _ p f => prog_bind p f |}.

#[export] Instance MonadExc_Prog {J} : MonadExc Thrown (Prog J) :=
  {| raise := fun _ e => Throw e; catch := fun _ p h => prog_catch p h |}.

(** Settling an awaited promise: its value, or its rejection rethrown. *)
Definition settle {J A} (c : Completion A) : Prog J A :=
  match c with
  | Returns a => Ret a
  | Throws e => Throw e
  end.

(** [await fetch(url, init)] *)
Definition fetch {J} (r : Request) : Prog J (Response J) :=
  Fetch r settle.

Definition console_log {J} (args : list (LogArg J)) : Prog J unit :=
  Console LevelLog args (Ret tt).

Definition console_error {J} (args : list (LogArg J)) : Prog J unit :=
  Console LevelError args (Ret tt).

(** Running a client program against a network. *)
Fixpoint run {J A} (net : Net J) (p : Prog J A) : list (Event J) * Completion A :=
  match p with
  | Ret a => ([], Returns a)
  | Throw e => ([], Throws e)
  | Fetch r k => let (tr, c) := run net (k (net r)) in (EvFetch r :: tr, c)
  | Console lvl args k =>
      let (tr, c) := run net k in (EvConsole lvl args :: tr, c)
  end.

Definition trace_of {J A} (net : Net J) (p : Prog J A) : list (Event J) :=
  fst (run net p).

Definition result_of {J A} (net : Net J) (p : Prog J A) : Completion A :=
  snd (run net p).

(** ** [JSON.stringify] *)

Definition dquote : ascii := "034"%char.
Definition backslash : ascii := "092"%char.

Definition hex_digit (n : nat) : ascii :=
  nth n ["0"; "1"; "2"; "3"; "4"; "5"; "6"; "7"; "8"; "9";
         "a"; "b"; "c"; "d"; "e"; "f"]%char "0"%char.

(** One character of [QuoteJSONString]: the short escapes, [\u00xx] for the
    other control characters, the character itself otherwise. *)
Definition quote_char (c : ascii) : string :=
  let n := nat_of_ascii c in
  if Nat.eqb n 8 then String backslash "b"
  else if Nat.eqb n 9 then String backslash "t"
  else if Nat.eqb n 10 then String backslash "n"
  else if Nat.eqb n 12 then String backslash "f"
  else if Nat.eqb n 13 then String backslash "r"
  else if Nat.eqb n 34 then String backslash (String dquote "")
  else if Nat.eqb n 92 then String backslash (String backslash "")
  else if Nat.ltb n 32 then
    String backslash
      (String "u" (String "0" (String "0"
        (String (hex_digit (n / 16)) (String (hex_digit (n mod 16)) "")))))
  else String c "".

Fixpoint quote_chars (s : string) : string :=
  match s with
  | EmptyString => ""
  | String c s' => quote_char c ++ quote_chars s'
  end.

Definition QuoteJSONString (s : string) : string :=
  String dquote (quote_chars s ++ String dquote "").

Fixpoint digits_of (fuel n : nat) (acc : string) : string :=
  match fuel with
  | O => acc
  | S fuel' =>
      let acc' := String (hex_digit (n mod 10)) acc in
      if Nat.ltb n 10 then acc' else digits_of fuel' (n / 10) acc'
  end.

Definition number_text (n : Z) : string :=
  let m := Z.to_nat (Z.abs n) in
  let ds := digits_of (S m) m "" in
  if Z.ltb n 0 then String "-" ds else ds.

Fixpoint JSON_stringify (v : JSONValue) : string :=
  match v with
  | JNull => "null"
  | JBool true => "true"
  | JBool false => "false"
  | JNum n => number_text n
  | JStr s => QuoteJSONString s
  | JArr items =>
      let fix elems (l : list JSONValue) : string :=
        match l with
        | [] => ""
        | [x] => JSON_stringify x
        | x :: rest => JSON_stringify x ++ "," ++ elems rest
        end in
      "[" ++ elems items ++ "]"
  | JObj fields =>
      let fix members (l : list (string * JSONValue)) : string :=
        match l with
        | [] => ""
        | [(k, x)] => QuoteJSONString k ++ ":" ++ JSON_stringify x
        | (k, x) :: rest =>
            QuoteJSONString k ++ ":" ++ JSON_stringify x ++ "," ++ members rest
        end in
      "{" ++ members fields ++ "}"
  end.

(** ** [class ApiClient] of [src/lib/api.ts] *)

Module Api.

(** [export interface Clipboard] *)
Record Clipboard : Type := {
  id : string;
  content : string;
  created_at : string;
  updated_at : string
}.

Section Client.
Context {J : Type}.
Variable baseUrl : string.

Definition createClipboard : Prog J J :=
  response <- fetch {| req_url := baseUrl ++ "/clipboard/new";
                       req_method := Some "POST";
                       req_headers := [("Content-Type", "application/json")];
                       req_body := None;
                       req_mode := None |} ;;
  if negb (ok response) then
    raise (ErrorObj "Failed to create clipboard")
  else
    settle (json response).

Definition getClipboard (clipboardId : string) : Prog J J :=
  response <- fetch {| req_url := baseUrl ++ "/clipboard/" ++ clipboardId;
                       req_method := None;
                       req_headers := [];
                       req_body := None;
                       req_mode := None |} ;;
  if negb (ok response) then
    if Z.eqb (status response) 404 then
      raise (ErrorObj "Clipboard not found")
    else
      raise (ErrorObj "Failed to fetch clipboard")
  else
    settle (json response).

Definition updateClipboard (clipboardId content : string) : Prog J J :=
  response <- fetch {| req_url := baseUrl ++ "/clipboard/" ++ clipboardId;
                       req_method := Some "PUT";
                       req_headers := [("Content-Type", "application/json")];
                       req_body :=
                         Some (JSON_stringify (JObj [("content", JStr content)]));
                       req_mode := None |} ;;
  if negb (ok response) then
    if Z.eqb (status response) 404 then
      raise (ErrorObj "Clipboard not found")
    else
      raise (ErrorObj "Failed to update clipboard")
  else
    settle (json response).

Definition checkHealth : Prog J bool :=
  catch
    (response <- fetch {| req_url := baseUrl ++ "/health";
                          req_method := None;
                          req_headers := [];
                          req_body := None;
                          req_mode := None |} ;;
     ret (ok response))
    (fun _ => ret false).
End Client.
End Api.

(** ** The copy of [class ApiClient] that accompanies the editor component *)

Module ApiCopy.
Section Client.
Context {J : Type}.
Variable baseUrl : string.

Definition createClipboard : Prog J J :=
  response <- fetch {| req_url := baseUrl ++ "/clipboard/new";
                       req_method := Some "POST";
                       req_headers := [("Content-Type", "application/json")];
                       req_body := None;
                       req_mode := Some "cors" |} ;;
  if negb (ok response) then
    raise (ErrorObj "Failed to create clipboard")
  else
    data <- settle (json response) ;;
    console_log [LStr "Create clipboard response:"; LVal data] ;;
    ret data.

Definition getClipboard (clipboardId : string) : Prog J J :=
  console_log [LStr "Fetching clipboard:"; LStr clipboardId] ;;
  response <- fetch {| req_url := baseUrl ++ "/clipboard/" ++ clipboardId;
                       req_method := None;
                       req_headers := [];
                       req_body := None;
                       req_mode := Some "cors" |} ;;
  if negb (ok response) then
    console_error [LStr "Get clipboard failed:"; LNum (status response);
                   LStr (statusText response)] ;;
    if Z.eqb (status response) 404 then
      raise (ErrorObj "Clipboard not found")
    else
      raise (ErrorObj "Failed to fetch clipboard")
  else
    data <- settle (json response) ;;
    console_log [LStr "Get clipboard response:"; LVal data] ;;
    ret data.

Definition updateClipboard (clipboardId content : string) : Prog J J :=
  response <- fetch {| req_url := baseUrl ++ "/clipboard/" ++ clipboardId;
                       req_method := Some "PUT";
                       req_headers := [("Content-Type", "application/json")];
                       req_body :=
                         Some (JSON_stringify (JObj [("content", JStr content)]));
                       req_mode := None |} ;;
  if negb (ok response) then
    if Z.eqb (status response) 404 then
      raise (ErrorObj "Clipboard not found")
    else
      raise (ErrorObj "Failed to update clipboard")
  else
    settle (json response).

Definition checkHealth : Prog J bool :=
  catch
    (response <- fetch {| req_url := baseUrl ++ "/health";
                          req_method := None;
                          req_headers := [];
                          req_body := None;
                          req_mode := None |} ;;
     ret (ok response))
    (fun _ => ret false).
End Client.
End ApiCopy.


(** ** Observations on client runs *)

Definition throws {A} (c : Completion A) : bool :=
  match c with
  | Returns _ => false
  | Throws _ => true
  end.

(** The requests of a trace, in order. *)
Fixpoint requests {J} (tr : list (Event J)) : list Request :=
  match tr with
  | [] => []
  | EvFetch r :: tr' => r :: requests tr'
  | EvConsole _ _ :: tr' => requests tr'
  end.

(** The method [fetch] uses: the one given, [GET] otherwise. *)
Definition effective_method (r : Request) : string :=
  match req_method r with
  | Some m => m
  | None => "GET"
  end.

Fixpoint assoc {V} (k : string) (l : list (string * V)) : option V :=
  match l with
  | [] => None
  | (k', v) :: l' => if String.eqb k k' then Some v else assoc k l'
  end.

Definition header (name : string) (r : Request) : option string :=
  assoc name (req_headers r).

(** The mode [fetch] uses: the one given, [cors] otherwise. *)
Definition default_mode (r : Request) : Request :=
  {| req_url := req_url r;
     req_method := req_method r;
     req_headers := req_headers r;
     req_body := req_body r;
     req_mode := Some match req_mode r with
                      | Some m => m
                      | None => "cors"
                      end |}.

(** A JSON object with exactly the four members of [Clipboard], each a
    string. *)
Definition is_Clipboard (v : JSONValue) : bool :=
  match v with
  | JObj fields =>
      Nat.eqb (List.length fields) 4 &&
      forallb (fun k => match assoc k fields with
                        | Some (JStr _) => true
                        | _ => false
                        end)
              ["id"; "content"; "created_at"; "updated_at"]
  | _ => false
  end.

Definition json_of_Clipboard (c : Api.Clipboard) : JSONValue :=
  JObj [("id", JStr (Api.id c)); ("content", JStr (Api.content c));
        ("created_at", JStr (Api.created_at c));
        ("updated_at", JStr (Api.updated_at c))].

(** What a client method makes of the outcome of its one [fetch]. *)
Definition outcome_throws {J} (o : FetchOutcome J) : bool :=
  match o with
  | Throws _ => true
  | Returns r => negb (ok r) || throws (json r)
  end.

Definition create_request (baseUrl : string) : Request :=
  {| req_url := baseUrl ++ "/clipboard/new";
     req_method := Some "POST";
     req_headers := [("Content-Type", "application/json")];
     req_body := None;
     req_mode := None |}.

Definition get_request (baseUrl clipboardId : string) : Request :=
  {| req_url := baseUrl ++ "/clipboard/" ++ clipboardId;
     req_method := None;
     req_headers := [];
     req_body := None;
     req_mode := None |}.

Definition update_request (baseUrl clipboardId content : string) : Request :=
  {| req_url := baseUrl ++ "/clipboard/" ++ clipboardId;
     req_method := Some "PUT";
     req_headers := [("Content-Type", "application/json")];
     req_body := Some (JSON_stringify (JObj [("content", JStr content)]));
     req_mode := None |}.

Definition health_request (baseUrl : string) : Request :=
  {| req_url := baseUrl ++ "/health";
     req_method := None;
     req_headers := [];
     req_body := None;
     req_mode := None |}.

Definition endpoint (r : Request) : string * string :=
  (effective_method r, req_url r).

(** A network for the examples: it answers by URL and method only. *)
Definition example_net : Net JSONValue :=
  fun r =>
    if String.eqb (req_url r) "https://clip.example/health" then
      Throws (ErrorObj "Failed to fetch")
    else if String.eqb (effective_method r) "POST" then
      Returns {| ok := true; status := 200; statusText := "OK";
                 json := Returns (JObj [("id", JStr "abc")]) |}
    else if String.eqb (req_url r) "https://clip.example/clipboard/abc" then
      Returns {| ok := true; status := 200; statusText := "OK";
                 json := Returns (json_of_Clipboard
                                    {| Api.id := "abc"; Api.content := "hello";
                                       Api.created_at := "2024-01-01T00:00:00";
                                       Api.updated_at := "2024-01-02T00:00:00" |}) |}
    else
      Returns {| ok := false; status := 404; statusText := "Not Found";
                 json := Returns (JObj [("detail", JStr "Clipboard not found")]) |}.

(** ** The editor component [ClipboardEditor] *)

Module Editor.

(** The argument of [toast]. *)
Record Toast : Type := {
  title : string;
  description : string;
  variant : option string
}.

(** Browser timer handles are positive integers, so a handle is truthy. *)
Definition TimerId : Type := nat.

(** The three closures the component hands to [setTimeout]. *)
Inductive Callback : Type :=
| CbSaveContent (newContent : string)
| CbResetCopiedContent
| CbResetCopiedLink.

(** The [useState] cells and the two [useRef] cells. *)
Record EditorState : Type := {
  content : string;
  clipboard : option Api.Clipboard;
  isLoading : bool;
  isSaving : bool;
  hasChanges : bool;
  copiedContent : bool;
  copiedLink : bool;
  error : option string;
  saveTimeoutRef : option TimerId;
  lastSavedContent : string
}.

Definition with_content (v : string) (s : EditorState) : EditorState :=
  {| content := v;
     clipboard := clipboard s;
     isLoading := isLoading s;
     isSaving := isSaving s;
     hasChanges := hasChanges s;
     copiedContent := copiedContent s;
     copiedLink := copiedLink s;
     error := error s;
     saveTimeoutRef := saveTimeoutRef s;
     lastSavedContent := lastSavedContent s |}.

Definition with_clipboard (v : option Api.Clipboard) (s : EditorState) : EditorState :=
  {| content := content s;
     clipboard := v;
     isLoading := isLoading s;
     isSaving := isSaving s;
     hasChanges := hasChanges s;
     copiedContent := copiedContent s;
     copiedLink := copiedLink s;
     error := error s;
     saveTimeoutRef := saveTimeoutRef s;
     lastSavedContent := lastSavedContent s |}.

Definition with_isLoading (v : bool) (s : EditorState) : EditorState :=
  {| content := content s;
     clipboard := clipboard s;
     isLoading := v;
     isSaving := isSaving s;
     hasChanges := hasChanges s;
     copiedContent := copiedContent s;
     copiedLink := copiedLink s;
     error := error s;
     saveTimeoutRef := saveTimeoutRef s;
     lastSavedContent := lastSavedContent s |}.

Definition with_isSaving (v : bool) (s : EditorState) : EditorState :=
  {| content := content s;
     clipboard := clipboard s;
     isLoading := isLoading s;
     isSaving := v;
     hasChanges := hasChanges s;
     copiedContent := copiedContent s;
     copiedLink := copiedLink s;
     error := error s;
     saveTimeoutRef := saveTimeoutRef s;
     lastSavedContent := lastSavedContent s |}.

Definition with_hasChanges (v : bool) (s : EditorState) : EditorState :=
  {| content := content s;
     clipboard := clipboard s;
     isLoading := isLoading s;
     isSaving := isSaving s;
     hasChanges := v;
     copiedContent := copiedContent s;
     copiedLink := copiedLink s;
     error := error s;
     saveTimeoutRef := saveTimeoutRef s;
     lastSavedContent := lastSavedContent s |}.

Definition with_copiedContent (v : bool) (s : EditorState) : EditorState :=
  {| content := content s;
     clipboard := clipboard s;
     isLoading := isLoading s;
     isSaving := isSaving s;
     hasChanges := hasChanges s;
     copiedContent := v;
     copiedLink := copiedLink s;
     error := error s;
     saveTimeoutRef := saveTimeoutRef s;
     lastSavedContent := lastSavedContent s |}.

Definition with_copiedLink (v : bool) (s : EditorState) : EditorState :=
  {| content := content s;
     clipboard := clipboard s;
     isLoading := isLoading s;
     isSaving := isSaving s;
     hasChanges := hasChanges s;
     copiedContent := copiedContent s;
     copiedLink := v;
     error := error s;
     saveTimeoutRef := saveTimeoutRef s;
     lastSavedContent := lastSavedContent s |}.

Definition with_error (v : option string) (s : EditorState) : EditorState :=
  {| content := content s;
     clipboard := clipboard s;
     isLoading := isLoading s;
     isSaving := isSaving s;
     hasChanges := hasChanges s;
     copiedContent := copiedContent s;
     copiedLink := copiedLink s;
     error := v;
     saveTimeoutRef := saveTimeoutRef s;
     lastSavedContent := lastSavedContent s |}.

Definition with_saveTimeoutRef (v : option TimerId) (s : EditorState) : EditorState :=
  {| content := content s;
     clipboard := clipboard s;
     isLoading := isLoading s;
     isSaving := isSaving s;
     hasChanges := hasChanges s;
     copiedContent := copiedContent s;
     copiedLink := copiedLink s;
     error := error s;
     saveTimeoutRef := v;
     lastSavedContent := lastSavedContent s |}.

Definition with_lastSavedContent (v : string) (s : EditorState) : EditorState :=
  {| content := content s;
     clipboard := clipboard s;
     isLoading := isLoading s;
     isSaving := isSaving s;
     hasChanges := hasChanges s;
     copiedContent := copiedContent s;
     copiedLink := copiedLink s;
     error := error s;
     saveTimeoutRef := saveTimeoutRef s;
     lastSavedContent := v |}.

(** Handlers and effects of the component: the nodes are what the code asks
    of React, the toast hook and the browser.  The two [TAwait] nodes are the
    [await]s; their continuation is the rest of the [async] function. *)
Inductive Task (A : Type) : Type :=
| TRet (a : A)
| TThrow (e : Thrown)
| TRead (k : EditorState -> Task A)
| TWrite (f : EditorState -> EditorState) (k : Task A)
| TToast (t : Toast) (k : Task A)
| TSetTimeout (cb : Callback) (ms : Z) (k : TimerId -> Task A)
| TClearTimeout (t : TimerId) (k : Task A)
| TAwaitFetch (r : Request) (k : FetchOutcome Api.Clipboard -> Task A)
| TAwaitWriteText (text : string) (k : Completion unit -> Task A).
Arguments TRet {A} a.
Arguments TThrow {A} e.
Arguments TRead {A} k.
Arguments TWrite {A} f k.
Arguments TToast {A} t k.
Arguments TSetTimeout {A} cb ms k.
Arguments TClearTimeout {A} t k.
Arguments TAwaitFetch {A} r k.
Arguments TAwaitWriteText {A} text k.

Fixpoint task_bind {A B} (t : Task A) (f : A -> Task B) : Task B :=
  match t with
  | TRet a => f a
  | TThrow e => TThrow e
  | TRead k => TRead (fun s => task_bind (k s) f)
  | TWrite g k => TWrite g (task_bind k f)
  | TToast x k => TToast x (task_bind k f)
  | TSetTimeout cb ms k => TSetTimeout cb ms (fun i => task_bind (k i) f)
  | TClearTimeout i k => TClearTimeout i (task_bind k f)
  | TAwaitFetch r k => TAwaitFetch r (fun o => task_bind (k o) f)
  | TAwaitWriteText x k => TAwaitWriteText x (fun o => task_bind (k o) f)
  end.

(** [try { t } catch (err) { h err }] *)
Fixpoint task_catch {A} (t : Task A) (h : Thrown -> Task A) : Task A :=
  match t with
  | TRet a => TRet a
  | TThrow e => h e
  | TRead k => TRead (fun s => task_catch (k s) h)
  | TWrite g k => TWrite g (task_catch k h)
  | TToast x k => TToast x (task_catch k h)
  | TSetTimeout cb ms k => TSetTimeout cb ms (fun i => task_catch (k i) h)
  | TClearTimeout i k => TClearTimeout i (task_catch k h)
  | TAwaitFetch r k => TAwaitFetch r (fun o => task_catch (k o) h)
  | TAwaitWriteText x k => TAwaitWriteText x (fun o => task_catch (k o) h)
  end.

(** [try { t } finally { f }]: [f] runs however [t] ends, then [t]'s own
    completion stands (unless [f] throws). *)
Fixpoint task_finally {A} (t : Task A) (f : Task unit) : Task A :=
  match t with
  | TRet a => task_bind f (fun _ => TRet a)
  | TThrow e => task_bind f (fun _ => TThrow e)
  | TRead k => TRead (fun s => task_finally (k s) f)
  | TWrite g k => TWrite g (task_finally k f)
  | TToast x k => TToast x (task_finally k f)
  | TSetTimeout cb ms k => TSetTimeout cb ms (fun i => task_finally (k i) f)
  | TClearTimeout i k => TClearTimeout i (task_finally k f)
  | TAwaitFetch r k => TAwaitFetch r (fun o => task_finally (k o) f)
  | TAwaitWriteText x k => TAwaitWriteText x (fun o => task_finally (k o) f)
  end.

#[export] Instance Monad_Task : Monad Task :=
  {| ret := fun _ a => TRet a; bind := fun _ _ t f => task_bind t f |}.

#[export] Instance MonadExc_Task : MonadExc Thrown Task :=
  {| raise := fun _ e => TThrow e; catch := fun _ t h => task_catch t h |}.

(** Reading a state cell of the current render, or a ref. *)
Definition read {A} (cell : EditorState -> A) : Task A :=
  TRead (fun s => TRet (cell s)).

Definition write (f : EditorState -> EditorState) : Task unit :=
  TWrite f (TRet tt).

Definition setContent v := write (with_content v).
Definition setClipboard v := write (with_clipboard v).
Definition setIsLoading v := write (with_isLoading v).
Definition setIsSaving v := write (with_isSaving v).
Definition setHasChanges v := write (with_hasChanges v).
Definition setCopiedContent v := write (with_copiedContent v).
Definition setCopiedLink v := write (with_copiedLink v).
Definition setError v := write (with_error v).

Definition toast (t : Toast) : Task unit := TToast t (TRet tt).

Definition setTimeout (cb : Callback) (ms : Z) : Task TimerId :=
  TSetTimeout cb ms (fun i => TRet i).

Definition clearTimeout (t : TimerId) : Task unit :=
  TClearTimeout t (TRet tt).

(** [await navigator.clipboard.writeText(text)] *)
Definition writeText (text : string) : Task unit :=
  TAwaitWriteText text
    (fun o => match o with Returns u => TRet u | Throws e => TThrow e end).

(** [await api.<method>(...)]: the client method run inside the component.
    The component imports the client of [src/lib/api.ts] and reads its
    results at their declared type; console output is not part of the
    component's state. *)
Fixpoint api {A} (p : Prog Api.Clipboard A) : Task A :=
  match p with
  | Ret a => TRet a
  | Throw e => TThrow e
  | Fetch r k => TAwaitFetch r (fun o => api (k o))
  | Console _ _ k => api k
  end.

(** [err instanceof Error ? err.message : fallback] *)
Definition message_or (err : Thrown) (fallback : string) : string :=
  match err with
  | ErrorObj message => message
  | NonError => fallback
  end.

Section Component.
(** [API_BASE_URL], the [clipboardId] prop and [window.location.href]. *)
Variable API_BASE_URL : string.
Variable clipboardId : string.
Variable href : string.

Definition fetchClipboard : Task unit :=
  task_finally
    (catch
       (setIsLoading true ;;
        setError None ;;
        data <- api (Api.getClipboard API_BASE_URL clipboardId) ;;
        setClipboard (Some data) ;;
        setContent (Api.content data) ;;
        write (with_lastSavedContent (Api.content data)))
       (fun err =>
          setError (Some (message_or err "Failed to load clipboard"))))
    (setIsLoading false).

Definition saveContent (newContent : string) : Task unit :=
  last <- read lastSavedContent ;;
  if String.eqb newContent last then ret tt
  else
    task_finally
      (catch
         (setIsSaving true ;;
          data <- api (Api.updateClipboard API_BASE_URL clipboardId newContent) ;;
          setClipboard (Some data) ;;
          write (with_lastSavedContent newContent) ;;
          setHasChanges false)
         (fun err =>
            toast {| title := "Failed to save";
                     description := message_or err "Could not save changes";
                     variant := Some "destructive" |}))
      (setIsSaving false).

Definition handleContentChange (newContent : string) : Task unit :=
  setContent newContent ;;
  last <- read lastSavedContent ;;
  setHasChanges (negb (String.eqb newContent last)) ;;
  pending <- read saveTimeoutRef ;;
  match pending with
  | Some t => clearTimeout t
  | None => ret tt
  end ;;
  t <- setTimeout (CbSaveContent newContent) 1500 ;;
  write (with_saveTimeoutRef (Some t)).

Definition copyContent : Task unit :=
  content <- read content ;;
  catch
    (writeText content ;;
     setCopiedContent true ;;
     _ <- setTimeout CbResetCopiedContent 2000 ;;
     toast {| title := "Copied!";
              description := "Content copied to clipboard";
              variant := None |})
    (fun _ =>
       toast {| title := "Failed to copy";
                description := "Could not copy to clipboard";
                variant := Some "destructive" |}).

Definition copyLink : Task unit :=
  catch
    (let url := href in
     writeText url ;;
     setCopiedLink true ;;
     _ <- setTimeout CbResetCopiedLink 2000 ;;
     toast {| title := "Link copied!";
              description := "Share this link with anyone";
              variant := None |})
    (fun _ =>
       toast {| title := "Failed to copy";
                description := "Could not copy link";
                variant := Some "destructive" |}).

Definition handleManualSave : Task unit :=
  pending <- read saveTimeoutRef ;;
  match pending with
  | Some t => clearTimeout t
  | None => ret tt
  end ;;
  content <- read content ;;
  saveContent content.

(** The body of each timer closure. *)
Definition run_callback (cb : Callback) : Task unit :=
  match cb with
  | CbSaveContent newContent => saveContent newContent
  | CbResetCopiedContent => setCopiedContent false
  | CbResetCopiedLink => setCopiedLink false
  end.
End Component.

(** ** The event loop around the component *)

(** A pending [setTimeout]. *)
Record Timer : Type := {
  timer_id : TimerId;
  timer_due : Z;
  timer_cb : Callback
}.

(** An [async] function stopped at an [await], with the rest of its body. *)
Inductive Parked : Type :=
| AwaitingFetch (r : Request) (k : FetchOutcome Api.Clipboard -> Task unit)
| AwaitingWriteText (text : string) (k : Completion unit -> Task unit).

(** What the loop started, for the record of a run. *)
Inductive Dispatched : Type :=
| DMount
| DChange (newContent : string)
| DClickSave (content : string)
| DClickCopy
| DClickShare
| DTimer (t : TimerId) (cb : Callback).

Record World : Type := {
  ui : EditorState;
  now : Z;
  timers : list Timer;
  next_timer : TimerId;
  toasts : list Toast;
  parked : list Parked;
  history : list (Z * Dispatched)
}.

Definition with_ui (v : EditorState) (w : World) : World :=
  {| ui := v;
     now := now w;
     timers := timers w;
     next_timer := next_timer w;
     toasts := toasts w;
     parked := parked w;
     history := history w |}.

Definition with_now (v : Z) (w : World) : World :=
  {| ui := ui w;
     now := v;
     timers := timers w;
     next_timer := next_timer w;
     toasts := toasts w;
     parked := parked w;
     history := history w |}.

Definition with_timers (v : list Timer) (w : World) : World :=
  {| ui := ui w;
     now := now w;
     timers := v;
     next_timer := next_timer w;
     toasts := toasts w;
     parked := parked w;
     history := history w |}.

Definition with_next_timer (v : TimerId) (w : World) : World :=
  {| ui := ui w;
     now := now w;
     timers := timers w;
     next_timer := v;
     toasts := toasts w;
     parked := parked w;
     history := history w |}.

Definition with_toasts (v : list Toast) (w : World) : World :=
  {| ui := ui w;
     now := now w;
     timers := timers w;
     next_timer := next_timer w;
     toasts := v;
     parked := parked w;
     history := history w |}.

Definition with_parked (v : list Parked) (w : World) : World :=
  {| ui := ui w;
     now := now w;
     timers := timers w;
     next_timer := next_timer w;
     toasts := toasts w;
     parked := v;
     history := history w |}.

Definition with_history (v : list (Z * Dispatched)) (w : World) : World :=
  {| ui := ui w;
     now := now w;
     timers := timers w;
     next_timer := next_timer w;
     toasts := toasts w;
     parked := parked w;
     history := v |}.


Definition clear_timer (t : TimerId) (l : list Timer) : list Timer :=
  filter (fun x => negb (Nat.eqb (timer_id x) t)) l.

(** Runs a task up to its next [await] (or its end).  An exception nobody
    catches ends the task. *)
Fixpoint exec (t : Task unit) (w : World) : World :=
  match t with
  | TRet _ => w
  | TThrow _ => w
  | TRead k => exec (k (ui w)) w
  | TWrite f k => exec k (with_ui (f (ui w)) w)
  | TToast x k => exec k (with_toasts (toasts w ++ [x]) w)
  | TSetTimeout cb ms k =>
      let i := next_timer w in
      exec (k i)
        (with_next_timer (S i)
           (with_timers
              (timers w ++ [{| timer_id := i; timer_due := now w + ms; timer_cb := cb |}])
              w))
  | TClearTimeout i k => exec k (with_timers (clear_timer i (timers w)) w)
  | TAwaitFetch r k => with_parked (parked w ++ [AwaitingFetch r k]) w
  | TAwaitWriteText x k => with_parked (parked w ++ [AwaitingWriteText x k]) w
  end.

Fixpoint remove_nth {A} (n : nat) (l : list A) : list A :=
  match n, l with
  | _, [] => []
  | O, _ :: l' => l'
  | S n', x :: l' => x :: remove_nth n' l'
  end.

(** What can happen to a mounted component. *)
Inductive Input : Type :=
| Advance (d : Z)
| Change (newContent : string)
| ClickSave
| ClickCopy
| ClickShare
| TimerFires (t : TimerId)
| FetchSettles (n : nat) (o : FetchOutcome Api.Clipboard)
| WriteTextSettles (n : nat) (o : Completion unit).

Section Loop.
Variable API_BASE_URL : string.
Variable clipboardId : string.
Variable href : string.

Definition dispatch (d : Dispatched) (t : Task unit) (w : World) : World :=
  exec t (with_history ((now w, d) :: history w) w).

(** One turn of the loop.  The loop offers every handler in every state
    (the rendered page offers fewer); a timer fires at or after its due
    time; time does not run backwards. *)
Definition step (i : Input) (w : World) : option World :=
  match i with
  | Advance d =>
      if Z.leb 0 d then Some (with_now (now w + d) w) else None
  | Change newContent =>
      Some (dispatch (DChange newContent) (handleContentChange newContent) w)
  | ClickSave =>
      Some (dispatch (DClickSave (content (ui w))) (handleManualSave API_BASE_URL clipboardId) w)
  | ClickCopy => Some (dispatch DClickCopy copyContent w)
  | ClickShare => Some (dispatch DClickShare (copyLink href) w)
  | TimerFires t =>
      match find (fun x => Nat.eqb (timer_id x) t) (timers w) with
      | Some x =>
          if Z.leb (timer_due x) (now w) then
            Some (dispatch (DTimer t (timer_cb x))
                    (run_callback API_BASE_URL clipboardId (timer_cb x))
                    (with_timers (clear_timer t (timers w)) w))
          else None
      | None => None
      end
  | FetchSettles n o =>
      match nth_error (parked w) n with
      | Some (AwaitingFetch _ k) =>
          Some (exec (k o) (with_parked (remove_nth n (parked w)) w))
      | _ => None
      end
  | WriteTextSettles n o =>
      match nth_error (parked w) n with
      | Some (AwaitingWriteText _ k) =>
          Some (exec (k o) (with_parked (remove_nth n (parked w)) w))
      | _ => None
      end
  end.

Fixpoint steps (l : list Input) (w : World) : option World :=
  match l with
  | [] => Some w
  | i :: l' =>
      match step i w with
      | Some w' => steps l' w'
      | None => None
      end
  end.

(** The first render: the [useState] and [useRef] initial values. *)
Definition initial : World :=
  {| ui := {| content := "";
              clipboard := None;
              isLoading := true;
              isSaving := false;
              hasChanges := false;
              copiedContent := false;
              copiedLink := false;
              error := None;
              saveTimeoutRef := None;
              lastSavedContent := "" |};
     now := 0;
     timers := [];
     next_timer := 1;
     toasts := [];
     parked := [];
     history := [] |}.

(** After mounting, the effect has called [fetchClipboard]. *)
Definition mounted : World :=
  dispatch DMount (fetchClipboard API_BASE_URL clipboardId) initial.
End Loop.


(** ** What a run keeps true *)

Definition is_save (cb : Callback) : bool :=
  match cb with
  | CbSaveContent _ => true
  | _ => false
  end.

(** The pending timers that will call [saveContent]. *)
Definition save_timers (w : World) : list Timer :=
  filter (fun x => is_save (timer_cb x)) (timers w).

(** The most recent edit on record (the record is newest first): when it
    happened and what was typed. *)
Fixpoint last_change (h : list (Z * Dispatched)) : option (Z * string) :=
  match h with
  | [] => None
  | (t, DChange c) :: _ => Some (t, c)
  | _ :: h' => last_change h'
  end.

(** Going from [w] to [w'] parks one more function, awaiting the answer to
    the request [r]: a request was sent. *)
Definition sends (w w' : World) (r : Request) : Prop :=
  exists k, parked w' = (parked w ++ [AwaitingFetch r k])%list.

(** A timer-started save at time [t] is on time when the latest edit before
    it typed the content it saves and lies at least 1500 ms back. *)
Definition on_time (t : Z) (d : Dispatched) (before : list (Z * Dispatched)) : Prop :=
  match d with
  | DTimer _ (CbSaveContent c) =>
      exists t0, last_change before = Some (t0, c) /\ (t0 + 1500 <= t)%Z
  | _ => True
  end.

Fixpoint debounced (h : list (Z * Dispatched)) : Prop :=
  match h with
  | [] => True
  | (t, d) :: h' => on_time t d h' /\ debounced h'
  end.

(** Tasks that leave the save timer alone: they clear no timer, set none
    that saves, and do not write [saveTimeoutRef]. *)
Inductive quiet {A : Type} : Task A -> Prop :=
| quiet_ret : forall a, quiet (TRet a)
| quiet_throw : forall e, quiet (TThrow e)
| quiet_read : forall k, (forall s, quiet (k s)) -> quiet (TRead k)
| quiet_write : forall f k,
    (forall s, saveTimeoutRef (f s) = saveTimeoutRef s) ->
    quiet k -> quiet (TWrite f k)
| quiet_toast : forall x k, quiet k -> quiet (TToast x k)
| quiet_set : forall cb ms k,
    is_save cb = false -> (forall i, quiet (k i)) -> quiet (TSetTimeout cb ms k)
| quiet_fetch : forall r k, (forall o, quiet (k o)) -> quiet (TAwaitFetch r k)
| quiet_text : forall x k, (forall o, quiet (k o)) -> quiet (TAwaitWriteText x k).

Definition parked_quiet (p : Parked) : Prop :=
  match p with
  | AwaitingFetch _ k => forall o, quiet (k o)
  | AwaitingWriteText _ k => forall o, quiet (k o)
  end.

(** Every pending save timer is the one [saveTimeoutRef] names, and was set
    by the latest edit, to save what that edit typed, 1500 ms after it. *)
Definition tracks_last_change (w : World) (x : Timer) : Prop :=
  is_save (timer_cb x) = true ->
  saveTimeoutRef (ui w) = Some (timer_id x) /\
  exists t0 c, last_change (history w) = Some (t0, c) /\
               timer_cb x = CbSaveContent c /\
               timer_due x = (t0 + 1500)%Z.

Record Inv (w : World) : Prop := {
  inv_fresh : Forall (fun x => timer_id x < next_timer w)%nat (timers w);
  inv_nodup : NoDup (map timer_id (timers w));
  inv_save : Forall (tracks_last_change w) (timers w);
  inv_parked : Forall parked_quiet (parked w);
  inv_history : debounced (history w)
}.

(** ** What the component renders *)

(** The three returns of the component function. *)
Inductive Screen : Type :=
| LoadingScreen
| ErrorScreen
| EditorScreen.

(** [if (error)] on a [string | null]: null and the empty string are falsy. *)
Definition truthy (v : option string) : bool :=
  match v with
  | Some (String _ _) => true
  | _ => false
  end.

Definition screen (s : EditorState) : Screen :=
  if isLoading s then LoadingScreen
  else if truthy (error s) then ErrorScreen
  else EditorScreen.

(** The save status line of the header. *)
Definition saveStatus (s : EditorState) : string :=
  if isSaving s then "Saving..."
  else if hasChanges s then "Unsaved changes"
  else "All changes saved".

(** [disabled={isSaving || !hasChanges}] of the Save button. *)
Definition saveDisabled (s : EditorState) : bool :=
  isSaving s || negb (hasChanges s).

(** What the rendered page lets happen: the textarea and the three buttons
    exist on the editor screen only, and a disabled Save button does not
    click.  Timers, settling promises and the clock need no page. *)
Definition offered (i : Input) (w : World) : bool :=
  match i with
  | Change _ | ClickCopy | ClickShare =>
      match screen (ui w) with
      | EditorScreen => true
      | _ => false
      end
  | ClickSave =>
      match screen (ui w) with
      | EditorScreen => negb (saveDisabled (ui w))
      | _ => false
      end
  | _ => true
  end.

Section Page.
Variable API_BASE_URL : string.
Variable clipboardId : string.
Variable href : string.

Definition page_step (i : Input) (w : World) : option World :=
  if offered i w then step API_BASE_URL clipboardId href i w else None.

Fixpoint page_steps (l : list Input) (w : World) : option World :=
  match l with
  | [] => Some w
  | i :: l' =>
      match page_step i w with
      | Some w' => page_steps l' w'
      | None => None
      end
  end.
End Page.

(** What a successful and a failed copy leave behind. *)
Definition copied (set : bool -> EditorState -> EditorState) (cb : Callback)
    (t : Toast) (w : World) : World :=
  with_toasts (toasts w ++ [t])
    (with_next_timer (S (next_timer w))
       (with_timers
          (timers w ++ [{| timer_id := next_timer w;
                           timer_due := now w + 2000;
                           timer_cb := cb |}])
          (with_ui (set true (ui w)) w))).

(** ** What a run keeps true of the text *)

(** [hasChanges] does not cry wolf. *)
Definition sound (s : EditorState) : Prop :=
  hasChanges s = true -> content s <> lastSavedContent s.

(** The rest of an [async] function after its [await], when it leaves the
    text, the loading flag and the error alone, parks nothing more, never
    raises [hasChanges] and keeps it sound. *)
Definition tail_calm (t : Task unit) : Prop :=
  forall w,
    parked (exec t w) = parked w /\
    isLoading (ui (exec t w)) = isLoading (ui w) /\
    content (ui (exec t w)) = content (ui w) /\
    error (ui (exec t w)) = error (ui w) /\
    (hasChanges (ui (exec t w)) = true -> hasChanges (ui w) = true) /\
    (sound (ui w) -> sound (ui (exec t w))).

(** The rest of [fetchClipboard]: it ends the loading state. *)
Definition load_tail (t : Task unit) : Prop :=
  forall w,
    parked (exec t w) = parked w /\
    isLoading (ui (exec t w)) = false /\
    hasChanges (ui (exec t w)) = hasChanges (ui w).

Definition calm_parked (p : Parked) : Prop :=
  match p with
  | AwaitingFetch _ k => forall o, tail_calm (k o)
  | AwaitingWriteText _ k => forall o, tail_calm (k o)
  end.

Definition load_parked (p : Parked) : Prop :=
  match p with
  | AwaitingFetch _ k => forall o, load_tail (k o)
  | AwaitingWriteText _ _ => False
  end.

(** While the editor is loading, the first parked function is
    [fetchClipboard]; everything else parked is calm. *)
Definition Calm (w : World) : Prop :=
  if isLoading (ui w) then
    exists p rest,
      parked w = p :: rest /\ load_parked p /\ Forall calm_parked rest
  else Forall calm_parked (parked w).

(** The tasks a parked function can go on with. *)
Definition tails (p : Parked) (t : Task unit) : Prop :=
  match p with
  | AwaitingFetch _ k => exists o, t = k o
  | AwaitingWriteText _ k => exists o, t = k o
  end.

(** A handler that, up to its [await], leaves the text, the saved text, the
    three flags of the page and the error alone, and parks calm functions
    only. *)
Definition head_calm (t : Task unit) : Prop :=
  forall w,
    isLoading (ui (exec t w)) = isLoading (ui w) /\
    content (ui (exec t w)) = content (ui w) /\
    lastSavedContent (ui (exec t w)) = lastSavedContent (ui w) /\
    hasChanges (ui (exec t w)) = hasChanges (ui w) /\
    error (ui (exec t w)) = error (ui w) /\
    exists extra,
      parked (exec t w) = (parked w ++ extra)%list /\ Forall calm_parked extra.

(** What holds on the page besides: [hasChanges] is sound, and false while
    the editor is loading. *)
Definition PageOK (w : World) : Prop :=
  sound (ui w) /\ (isLoading (ui w) = true -> hasChanges (ui w) = false).

(** The timers an edit keeps: all but the save timer. *)
Definition kept_timers (w : World) : list Timer :=
  match saveTimeoutRef (ui w) with
  | Some t => clear_timer t (timers w)
  | None => timers w
  end.

(** A clipboard, an ok answer carrying it, and the first fetch answered
    with it, for the examples. *)
Definition example_data : Api.Clipboard :=
  {| Api.id := "abc"; Api.content := "hello";
     Api.created_at := "2024-01-01T00:00:00";
     Api.updated_at := "2024-01-02T00:00:00" |}.

Definition example_response : Response Api.Clipboard :=
  {| ok := true; status := 200; statusText := "OK";
     json := Returns example_data |}.

Definition example_load : list Input :=
  [FetchSettles 0 (Returns example_response)].

(** A session for the examples: the clipboard loads, the user types twice
    within 1.5 s, waits, and the pending timer fires. *)
Definition example_session : list Input :=
  [FetchSettles 0
     (Returns {| ok := true; status := 200; statusText := "OK";
                 json := Returns {| Api.id := "abc";
                                    Api.content := "hello";
                                    Api.created_at := "2024-01-01T00:00:00";
                                    Api.updated_at := "2024-01-02T00:00:00" |} |});
   Change "hello!"; Advance 1000; Change "hello!!"; Advance 1500;
   TimerFires 2].

End Editor.

(** * Properties of the REST client *)

Section ClientFacts.
Context {J : Type}.
Variable baseUrl : string.
Variable net : Net J.

Lemma run_createClipboard :
  run net (Api.createClipboard baseUrl) =
  ([EvFetch (create_request baseUrl)],
   match net (create_request baseUrl) with
   | Throws e => Throws e
   | Returns r =>
       if ok r then json r else Throws (ErrorObj "Failed to create clipboard")
   end).
Proof.
  unfold Api.createClipboard, create_request; cbn.
  destruct (net _) as [r | e]; cbn; [| reflexivity].
  destruct (ok r); cbn; [| reflexivity].
  destruct (json r); reflexivity.
Qed.

Lemma run_getClipboard (clipboardId : string) :
  run net (Api.getClipboard baseUrl clipboardId) =
  ([EvFetch (get_request baseUrl clipboardId)],
   match net (get_request baseUrl clipboardId) with
   | Throws e => Throws e
   | Returns r =>
       if ok r then json r
       else if Z.eqb (status r) 404 then Throws (ErrorObj "Clipboard not found")
       else Throws (ErrorObj "Failed to fetch clipboard")
   end).
Proof.
  unfold Api.getClipboard, get_request; cbn.
  destruct (net _) as [r | e]; cbn; [| reflexivity].
  destruct (ok r); cbn.
  - destruct (json r); reflexivity.
  - destruct (Z.eqb (status r) 404); reflexivity.
Qed.

Lemma run_updateClipboard (clipboardId content : string) :
  run net (Api.updateClipboard baseUrl clipboardId content) =
  ([EvFetch (update_request baseUrl clipboardId content)],
   match net (update_request baseUrl clipboardId content) with
   | Throws e => Throws e
   | Returns r =>
       if ok r then json r
       else if Z.eqb (status r) 404 then Throws (ErrorObj "Clipboard not found")
       else Throws (ErrorObj "Failed to update clipboard")
   end).
Proof.
  unfold Api.updateClipboard, update_request.
  generalize (JSON_stringify (JObj [("content", JStr content)])); intro body; cbn.
  destruct (net _) as [r | e]; cbn; [| reflexivity].
  destruct (ok r); cbn.
  - destruct (json r); reflexivity.
  - destruct (Z.eqb (status r) 404); reflexivity.
Qed.

Lemma run_checkHealth :
  run net (Api.checkHealth baseUrl) =
  ([EvFetch (health_request baseUrl)],
   match net (health_request baseUrl) with
   | Throws _ => Returns false
   | Returns r => Returns (ok r)
   end).
Proof.
  unfold Api.checkHealth, health_request; cbn.
  destruct (net _) as [r | e]; reflexivity.
Qed.
End ClientFacts.

(** C4, as amended.  The client's four methods call POST /clipboard/new,
    GET /clipboard/{id}, PUT /clipboard/{id} and GET /health, once each.
    Create, read and update throw exactly when the fetch rejects, or the
    response is not ok, or reading the body of an ok response as JSON
    fails. *)
Theorem client_endpoints_and_throws :
  forall (J : Type) (baseUrl clipboardId content : string) (net : Net J),
    map endpoint (requests (trace_of net (Api.createClipboard baseUrl))) =
      [("POST", baseUrl ++ "/clipboard/new")] /\
    map endpoint (requests (trace_of net (Api.getClipboard baseUrl clipboardId))) =
      [("GET", baseUrl ++ "/clipboard/" ++ clipboardId)] /\
    map endpoint
        (requests (trace_of net (Api.updateClipboard baseUrl clipboardId content))) =
      [("PUT", baseUrl ++ "/clipboard/" ++ clipboardId)] /\
    map endpoint (requests (trace_of net (Api.checkHealth baseUrl))) =
      [("GET", baseUrl ++ "/health")] /\
    throws (result_of net (Api.createClipboard baseUrl)) =
      outcome_throws (net (create_request baseUrl)) /\
    throws (result_of net (Api.getClipboard baseUrl clipboardId)) =
      outcome_throws (net (get_request baseUrl clipboardId)) /\
    throws (result_of net (Api.updateClipboard baseUrl clipboardId content)) =
      outcome_throws (net (update_request baseUrl clipboardId content)).
Proof.
  intros J baseUrl clipboardId content net.
  unfold trace_of, result_of.
  rewrite run_createClipboard, run_getClipboard, run_updateClipboard,
    run_checkHealth.
  repeat split; cbn [fst snd requests map]; try reflexivity.
  - destruct (net _) as [r | e]; cbn; [| reflexivity].
    destruct (ok r); reflexivity.
  - destruct (net _) as [r | e]; cbn; [| reflexivity].
    destruct (ok r); cbn; [reflexivity |].
    destruct (Z.eqb (status r) 404); reflexivity.
  - destruct (net _) as [r | e]; cbn; [| reflexivity].
    destruct (ok r); cbn; [reflexivity |].
    destruct (Z.eqb (status r) 404); reflexivity.
Qed.

(** C4 as first stated fails: a response that is ok but whose body is not
    JSON makes [getClipboard] throw. *)
Lemma getClipboard_throws_on_ok_response :
  let r : Response JSONValue :=
    {| ok := true; status := 200; statusText := "OK";
       json := Throws (ErrorObj "Unexpected end of JSON input") |} in
  ~ (throws (result_of (fun _ => Returns r)
               (Api.getClipboard "https://clip.example" "abc")) = true
     <-> ok r = false).
Proof.
  cbv zeta. intros [H _].
  assert (E : true = false) by (apply H; reflexivity).
  discriminate E.
Qed.

(** C5, as amended.  [getClipboard] and [updateClipboard] hand back the
    parsed body of an ok response as it came, unchecked: whenever the
    response is ok they end as [response.json()] ends, whatever the body is,
    and whatever they return was the body of an ok response.  So what they
    return has exactly the four string members of [Clipboard] when, and only
    when, the body the server sent has them.  Every [Clipboard] record is
    such a body. *)
Theorem clipboard_result_is_response_body :
  forall (baseUrl clipboardId content : string) (net : Net JSONValue),
    (forall r,
        net (get_request baseUrl clipboardId) = Returns r ->
        ok r = true ->
        result_of net (Api.getClipboard baseUrl clipboardId) = json r) /\
    (forall r,
        net (update_request baseUrl clipboardId content) = Returns r ->
        ok r = true ->
        result_of net (Api.updateClipboard baseUrl clipboardId content) = json r) /\
    (forall v,
        result_of net (Api.getClipboard baseUrl clipboardId) = Returns v ->
        exists r, net (get_request baseUrl clipboardId) = Returns r /\
                  ok r = true /\ json r = Returns v) /\
    (forall v,
        result_of net (Api.updateClipboard baseUrl clipboardId content) = Returns v ->
        exists r, net (update_request baseUrl clipboardId content) = Returns r /\
                  ok r = true /\ json r = Returns v) /\
    (forall c : Api.Clipboard, is_Clipboard (json_of_Clipboard c) = true).
Proof.
  intros baseUrl clipboardId content net.
  unfold result_of. rewrite run_getClipboard, run_updateClipboard.
  cbn [snd]. split; [| split; [| split; [| split]]].
  - intros r Hnet Hok. rewrite Hnet, Hok. reflexivity.
  - intros r Hnet Hok. rewrite Hnet, Hok. reflexivity.
  - intro v. destruct (net _) as [r | e]; [| discriminate].
    destruct (ok r) eqn:Hok.
    + intro H. exists r. auto.
    + destruct (Z.eqb (status r) 404); discriminate.
  - intro v. destruct (net _) as [r | e]; [| discriminate].
    destruct (ok r) eqn:Hok.
    + intro H. exists r. auto.
    + destruct (Z.eqb (status r) 404); discriminate.
  - intro c. reflexivity.
Qed.

(** C5 as first stated fails: the server answers 200 with the body [{}] and
    [getClipboard] returns that empty object. *)
Lemma getClipboard_returns_any_body :
  let net : Net JSONValue :=
    fun _ => Returns {| ok := true; status := 200; statusText := "OK";
                        json := Returns (JObj []) |} in
  ~ (forall v, result_of net (Api.getClipboard "https://clip.example" "abc")
                 = Returns v ->
               is_Clipboard v = true).
Proof.
  cbv zeta. intro H.
  specialize (H (JObj []) eq_refl). discriminate H.
Qed.

(** C6.  [updateClipboard] sends [JSON.stringify({ content })] as the body
    with the header Content-Type: application/json, and create, read and
    update return what [response.json()] yields whenever the response is
    ok. *)
Theorem wire_protocol_is_json :
  forall (J : Type) (baseUrl clipboardId content : string) (net : Net J)
         (st : Z) (txt : string) (body : Completion J),
    (exists r,
        requests (trace_of net (Api.updateClipboard baseUrl clipboardId content))
          = [r] /\
        req_body r = Some (JSON_stringify (JObj [("content", JStr content)])) /\
        header "Content-Type" r = Some "application/json") /\
    let answer : Net J :=
      fun _ => Returns {| ok := true; status := st; statusText := txt;
                          json := body |} in
    result_of answer (Api.createClipboard baseUrl) = body /\
    result_of answer (Api.getClipboard baseUrl clipboardId) = body /\
    result_of answer (Api.updateClipboard baseUrl clipboardId content) = body.
Proof.
  intros J baseUrl clipboardId content net st txt body.
  unfold trace_of, result_of.
  rewrite !run_createClipboard, !run_getClipboard, !run_updateClipboard.
  cbn [fst snd requests ok json]. split.
  - exists (update_request baseUrl clipboardId content).
    repeat split.
  - repeat split.
Qed.

(** C7.  The request [getClipboard] issues is built from the base URL and
    the identifier alone, and the request [updateClipboard] issues from
    those and the content: whatever the network answers, it is that one
    request, with no header besides Content-Type (none at all for a read),
    hence no Authorization or Cookie header. *)
Theorem requests_depend_on_identifier_only :
  forall (J : Type) (baseUrl clipboardId content : string) (net : Net J),
    requests (trace_of net (Api.getClipboard baseUrl clipboardId)) =
      [{| req_url := baseUrl ++ "/clipboard/" ++ clipboardId;
          req_method := None;
          req_headers := [];
          req_body := None;
          req_mode := None |}] /\
    requests (trace_of net (Api.updateClipboard baseUrl clipboardId content)) =
      [{| req_url := baseUrl ++ "/clipboard/" ++ clipboardId;
          req_method := Some "PUT";
          req_headers := [("Content-Type", "application/json")];
          req_body := Some (JSON_stringify (JObj [("content", JStr content)]));
          req_mode := None |}] /\
    Forall (fun r => header "Authorization" r = None /\ header "Cookie" r = None)
      (requests (trace_of net (Api.getClipboard baseUrl clipboardId)) ++
       requests (trace_of net (Api.updateClipboard baseUrl clipboardId content))).
Proof.
  intros J baseUrl clipboardId content net.
  unfold trace_of. rewrite run_getClipboard, run_updateClipboard.
  cbn [fst requests app]. repeat split.
  repeat constructor.
Qed.

(** C8.  [checkHealth] always returns and never throws: [true] exactly when
    the GET /health response is ok, [false] when the fetch itself fails. *)
Theorem checkHealth_total :
  forall (J : Type) (baseUrl : string) (net : Net J),
    result_of net (Api.checkHealth baseUrl) =
      Returns match net (health_request baseUrl) with
              | Returns r => ok r
              | Throws _ => false
              end /\
    endpoint (health_request baseUrl) = ("GET", baseUrl ++ "/health").
Proof.
  intros J baseUrl net. unfold result_of. rewrite run_checkHealth.
  cbn [snd]. split; [| reflexivity].
  destruct (net _); reflexivity.
Qed.

Section CopyFacts.
Context {J : Type}.
Variable baseUrl : string.
Variable net : Net J.

Lemma result_copy_createClipboard :
  result_of net (ApiCopy.createClipboard baseUrl) =
  match net (default_mode (create_request baseUrl)) with
  | Throws e => Throws e
  | Returns r =>
      if ok r then json r else Throws (ErrorObj "Failed to create clipboard")
  end.
Proof.
  unfold result_of, ApiCopy.createClipboard, create_request, default_mode; cbn.
  destruct (net _) as [r | e]; cbn; [| reflexivity].
  destruct (ok r); cbn; [| reflexivity].
  destruct (json r); reflexivity.
Qed.

Lemma result_copy_getClipboard (clipboardId : string) :
  result_of net (ApiCopy.getClipboard baseUrl clipboardId) =
  match net (default_mode (get_request baseUrl clipboardId)) with
  | Throws e => Throws e
  | Returns r =>
      if ok r then json r
      else if Z.eqb (status r) 404 then Throws (ErrorObj "Clipboard not found")
      else Throws (ErrorObj "Failed to fetch clipboard")
  end.
Proof.
  unfold result_of, ApiCopy.getClipboard, get_request, default_mode; cbn.
  destruct (net _) as [r | e]; cbn; [| reflexivity].
  destruct (ok r); cbn.
  - destruct (json r); reflexivity.
  - destruct (Z.eqb (status r) 404); reflexivity.
Qed.

Lemma wire_copy_createClipboard :
  map default_mode (requests (trace_of net (ApiCopy.createClipboard baseUrl))) =
  [default_mode (create_request baseUrl)].
Proof.
  unfold trace_of, ApiCopy.createClipboard, create_request, default_mode; cbn.
  destruct (net _) as [r | e]; cbn; [| reflexivity].
  destruct (ok r); cbn; [| reflexivity].
  destruct (json r); reflexivity.
Qed.

Lemma wire_copy_getClipboard (clipboardId : string) :
  map default_mode
    (requests (trace_of net (ApiCopy.getClipboard baseUrl clipboardId))) =
  [default_mode (get_request baseUrl clipboardId)].
Proof.
  unfold trace_of, ApiCopy.getClipboard, get_request, default_mode; cbn.
  destruct (net _) as [r | e]; cbn; [| reflexivity].
  destruct (ok r); cbn.
  - destruct (json r); reflexivity.
  - destruct (Z.eqb (status r) 404); reflexivity.
Qed.
End CopyFacts.

(** C10.  On a network that treats a request without a mode as a [cors]
    request (the default of [fetch]), each of the four methods ends the same
    way in both copies of [ApiClient]: the same value returned or the same
    error thrown.  With console output left out and the mode made explicit,
    the two copies also issue the same requests. *)
Theorem api_copies_equivalent :
  forall (J : Type) (baseUrl clipboardId content : string) (net : Net J),
    (forall r, net (default_mode r) = net r) ->
    (result_of net (ApiCopy.createClipboard baseUrl) =
       result_of net (Api.createClipboard baseUrl) /\
     result_of net (ApiCopy.getClipboard baseUrl clipboardId) =
       result_of net (Api.getClipboard baseUrl clipboardId) /\
     result_of net (ApiCopy.updateClipboard baseUrl clipboardId content) =
       result_of net (Api.updateClipboard baseUrl clipboardId content) /\
     result_of net (ApiCopy.checkHealth baseUrl) =
       result_of net (Api.checkHealth baseUrl)) /\
    (map default_mode (requests (trace_of net (ApiCopy.createClipboard baseUrl))) =
       map default_mode (requests (trace_of net (Api.createClipboard baseUrl))) /\
     map default_mode
         (requests (trace_of net (ApiCopy.getClipboard baseUrl clipboardId))) =
       map default_mode
         (requests (trace_of net (Api.getClipboard baseUrl clipboardId))) /\
     requests (trace_of net (ApiCopy.updateClipboard baseUrl clipboardId content)) =
       requests (trace_of net (Api.updateClipboard baseUrl clipboardId content)) /\
     requests (trace_of net (ApiCopy.checkHealth baseUrl)) =
       requests (trace_of net (Api.checkHealth baseUrl))).
Proof.
  intros J baseUrl clipboardId content net Hmode.
  rewrite result_copy_createClipboard, result_copy_getClipboard.
  rewrite wire_copy_createClipboard, wire_copy_getClipboard.
  rewrite !Hmode.
  unfold result_of, trace_of.
  rewrite run_createClipboard, run_getClipboard.
  repeat split.
Qed.

Lemma api_copies_equivalent_witness :
  result_of example_net (ApiCopy.getClipboard "https://clip.example" "abc") =
  result_of example_net (Api.getClipboard "https://clip.example" "abc").
Proof.
  apply (api_copies_equivalent "https://clip.example" "abc" "hello" example_net).
  intro r. reflexivity.
Defined.

Lemma clipboard_result_is_response_body_witness :
  result_of example_net (Api.getClipboard "https://clip.example" "abc") =
  Returns (JObj [("id", JStr "abc"); ("content", JStr "hello");
                 ("created_at", JStr "2024-01-01T00:00:00");
                 ("updated_at", JStr "2024-01-02T00:00:00")]).
Proof.
  apply (proj1 (clipboard_result_is_response_body
                  "https://clip.example" "abc" "hello" example_net)
           {| ok := true; status := 200; statusText := "OK";
              json := Returns (JObj [("id", JStr "abc"); ("content", JStr "hello");
                                     ("created_at", JStr "2024-01-01T00:00:00");
                                     ("updated_at", JStr "2024-01-02T00:00:00")]) |}).
  - reflexivity.
  - reflexivity.
Defined.

(** * Properties of the editor component *)

Import Editor.

(** ** Tasks that leave the save timer alone *)

Create HintDb quiet.
#[local] Hint Constructors quiet : quiet.

Lemma quiet_bind {A B} (t : Task A) (f : A -> Task B) :
  quiet t -> (forall a, quiet (f a)) -> quiet (task_bind t f).
Proof.
  intros Ht Hf. induction Ht; cbn; auto with quiet.
Qed.

Lemma quiet_catch {A} (t : Task A) (h : Thrown -> Task A) :
  quiet t -> (forall e, quiet (h e)) -> quiet (task_catch t h).
Proof.
  intros Ht Hh. induction Ht; cbn; auto with quiet.
Qed.

Lemma quiet_finally {A} (t : Task A) (f : Task unit) :
  quiet t -> quiet f -> quiet (task_finally t f).
Proof.
  intros Ht Hf. induction Ht; cbn; auto with quiet.
  - apply quiet_bind; auto with quiet.
  - apply quiet_bind; auto with quiet.
Qed.

Lemma quiet_api {A} (p : Prog Api.Clipboard A) : quiet (api p).
Proof.
  induction p; cbn; auto with quiet.
Qed.

Ltac quiet_step :=
  first
    [ apply quiet_finally
    | apply quiet_catch
    | apply quiet_bind
    | apply quiet_api
    | apply quiet_write; [reflexivity |]
    | apply quiet_set; [reflexivity |]
    | constructor ].

Ltac quiet_tac :=
  cbn [bind ret catch raise Monad_Task MonadExc_Task];
  repeat (intros; quiet_step).

Lemma quiet_saveContent (base cid c : string) : quiet (saveContent base cid c).
Proof.
  unfold saveContent, read, setIsSaving, setClipboard, setHasChanges, write, toast.
  cbn [bind ret catch raise Monad_Task MonadExc_Task task_bind].
  constructor. intro s. destruct (String.eqb c (lastSavedContent s)).
  - constructor.
  - quiet_tac.
Qed.

Lemma quiet_fetchClipboard (base cid : string) : quiet (fetchClipboard base cid).
Proof.
  unfold fetchClipboard, setIsLoading, setError, setClipboard, setContent, write.
  quiet_tac.
Qed.

Lemma quiet_copyContent : quiet copyContent.
Proof.
  unfold copyContent, read, writeText, setCopiedContent, setTimeout, write, toast.
  quiet_tac. destruct o; constructor.
Qed.

Lemma quiet_copyLink (href : string) : quiet (copyLink href).
Proof.
  unfold copyLink, writeText, setCopiedLink, setTimeout, write, toast.
  quiet_tac. destruct o; constructor.
Qed.

Lemma quiet_run_callback (base cid : string) (cb : Callback) :
  quiet (run_callback base cid cb).
Proof.
  destruct cb; cbn [run_callback].
  - apply quiet_saveContent.
  - unfold setCopiedContent, write. quiet_tac.
  - unfold setCopiedLink, write. quiet_tac.
Qed.

(** ** The invariant of the event loop *)

Lemma history_exec (t : Task unit) :
  forall w, history (exec t w) = history w.
Proof.
  induction t as [a | e | k IH | f k IH | x k IH | cb ms k IH | i k IH
                 | r k | x k];
    intro w; cbn; try reflexivity; rewrite IH; reflexivity.
Qed.

Lemma tracks_ext (w w' : World) (x : Timer) :
  saveTimeoutRef (ui w') = saveTimeoutRef (ui w) ->
  last_change (history w') = last_change (history w) ->
  tracks_last_change w x -> tracks_last_change w' x.
Proof.
  unfold tracks_last_change. intros Href Hlast H Hs.
  rewrite Href, Hlast. auto.
Qed.

Lemma Forall_tracks_ext (w w' : World) (l : list Timer) :
  saveTimeoutRef (ui w') = saveTimeoutRef (ui w) ->
  last_change (history w') = last_change (history w) ->
  Forall (tracks_last_change w) l -> Forall (tracks_last_change w') l.
Proof.
  intros Href Hlast H. eapply Forall_impl; [| exact H].
  intro x. apply tracks_ext; assumption.
Qed.

Lemma Inv_with_ui (f : EditorState -> EditorState) (w : World) :
  (forall s, saveTimeoutRef (f s) = saveTimeoutRef s) ->
  Inv w -> Inv (with_ui (f (ui w)) w).
Proof.
  intros Hf [Hfresh Hnodup Hsave Hparked Hhist].
  constructor; cbn; auto.
  eapply Forall_tracks_ext; [| | exact Hsave]; cbn; auto.
Qed.

Lemma Inv_with_toasts (l : list Toast) (w : World) :
  Inv w -> Inv (with_toasts l w).
Proof.
  intros [Hfresh Hnodup Hsave Hparked Hhist].
  constructor; cbn; auto.
Qed.

Lemma Inv_with_now (t : Z) (w : World) :
  Inv w -> Inv (with_now t w).
Proof.
  intros [Hfresh Hnodup Hsave Hparked Hhist].
  constructor; cbn; auto.
Qed.

Lemma Inv_with_parked (l : list Parked) (w : World) :
  Forall parked_quiet l -> Inv w -> Inv (with_parked l w).
Proof.
  intros Hl [Hfresh Hnodup Hsave Hparked Hhist].
  constructor; cbn; auto.
Qed.

Lemma fresh_not_in (n : nat) (l : list Timer) :
  Forall (fun x => timer_id x < n)%nat l -> ~ In n (map timer_id l).
Proof.
  intros H Hin. apply in_map_iff in Hin. destruct Hin as [x [Hx Hin]].
  rewrite Forall_forall in H. specialize (H x Hin). lia.
Qed.

Lemma NoDup_snoc {A} (l : list A) (a : A) :
  NoDup l -> ~ In a l -> NoDup (l ++ [a]).
Proof.
  intros Hl Ha. induction Hl as [| x l Hx Hl IH]; cbn.
  - constructor; [intros [] | constructor].
  - constructor.
    + rewrite in_app_iff. intros [H | [H | []]]; [auto |].
      apply Ha. left. auto.
    + apply IH. intro H. apply Ha. right. exact H.
Qed.

(** A new timer that does not save keeps the invariant. *)
Lemma Inv_add_timer (cb : Callback) (due : Z) (w : World) :
  is_save cb = false ->
  Inv w ->
  Inv (with_next_timer (S (next_timer w))
         (with_timers
            (timers w ++ [{| timer_id := next_timer w; timer_due := due;
                             timer_cb := cb |}]) w)).
Proof.
  intros Hcb [Hfresh Hnodup Hsave Hparked Hhist].
  constructor; cbn; auto.
  - apply Forall_app. split.
    + eapply Forall_impl; [| exact Hfresh]. cbn. intros; lia.
    + repeat constructor.
  - rewrite map_app. cbn. apply NoDup_snoc; [assumption |].
    apply fresh_not_in. assumption.
  - apply Forall_app. split.
    + eapply Forall_tracks_ext; [| | exact Hsave]; reflexivity.
    + constructor; [| constructor].
      unfold tracks_last_change; cbn. rewrite Hcb. discriminate.
Qed.

Lemma NoDup_clear_timer (i : TimerId) (l : list Timer) :
  NoDup (map timer_id l) -> NoDup (map timer_id (clear_timer i l)).
Proof.
  unfold clear_timer.
  induction l as [| x l IH]; cbn; intro H; [constructor |].
  inversion H as [| y l' Hx Hl]; subst.
  destruct (negb (Nat.eqb (timer_id x) i)); cbn; auto.
  constructor; auto.
  intro Hin. apply Hx. apply in_map_iff in Hin. destruct Hin as [z [Hz Hin]].
  apply in_map_iff. exists z. split; [assumption |].
  apply filter_In in Hin. tauto.
Qed.

Lemma Forall_filter {A} (P : A -> Prop) (p : A -> bool) (l : list A) :
  Forall P l -> Forall P (filter p l).
Proof.
  rewrite !Forall_forall. intros H x Hx. apply H.
  apply filter_In in Hx. tauto.
Qed.

Lemma Inv_clear_timer (i : TimerId) (w : World) :
  Inv w -> Inv (with_timers (clear_timer i (timers w)) w).
Proof.
  intros [Hfresh Hnodup Hsave Hparked Hhist].
  constructor; cbn; auto.
  - apply Forall_filter. assumption.
  - apply NoDup_clear_timer. assumption.
  - apply Forall_filter.
    eapply Forall_tracks_ext; [| | exact Hsave]; reflexivity.
Qed.

(** Recording a dispatch that is not an edit keeps the invariant, if the
    dispatch is on time. *)
Lemma Inv_record (d : Dispatched) (w : World) :
  (forall c, d <> DChange c) ->
  on_time (now w) d (history w) ->
  Inv w -> Inv (with_history ((now w, d) :: history w) w).
Proof.
  intros Hd Hon [Hfresh Hnodup Hsave Hparked Hhist].
  constructor; cbn; auto.
  eapply Forall_tracks_ext; [| | exact Hsave]; cbn; [reflexivity |].
  destruct d; try reflexivity.
  exfalso. eapply Hd. reflexivity.
Qed.

Lemma Inv_exec_quiet (t : Task unit) :
  quiet t -> forall w, Inv w -> Inv (exec t w).
Proof.
  induction 1 as [a | e | k Hk IH | f k Hf Hk IH | x k Hk IH
                 | cb ms k Hcb Hk IH | r k Hk IH | x k Hk IH];
    intros w Hw; cbn.
  - assumption.
  - assumption.
  - apply IH. assumption.
  - apply IH. apply Inv_with_ui; assumption.
  - apply IH. apply Inv_with_toasts. assumption.
  - apply IH. apply Inv_add_timer; assumption.
  - apply Inv_with_parked; [| assumption].
    apply Forall_app. split; [apply (inv_parked Hw) |].
    constructor; [exact Hk | constructor].
  - apply Inv_with_parked; [| assumption].
    apply Forall_app. split; [apply (inv_parked Hw) |].
    constructor; [exact Hk | constructor].
Qed.

(** What [handleContentChange] leaves behind. *)
Lemma exec_handleContentChange (c : string) (w : World) :
  exec (handleContentChange c) w =
  {| ui := with_saveTimeoutRef (Some (next_timer w))
             (with_hasChanges (negb (String.eqb c (lastSavedContent (ui w))))
                (with_content c (ui w)));
     now := now w;
     timers :=
       match saveTimeoutRef (ui w) with
       | Some t => clear_timer t (timers w)
       | None => timers w
       end ++ [{| timer_id := next_timer w; timer_due := now w + 1500;
                  timer_cb := CbSaveContent c |}];
     next_timer := S (next_timer w);
     toasts := toasts w;
     parked := parked w;
     history := history w |}.
Proof.
  unfold handleContentChange; cbn.
  destruct (saveTimeoutRef (ui w)); reflexivity.
Qed.

(** Under the invariant, clearing the timer [saveTimeoutRef] names removes
    every pending save timer. *)
Lemma no_save_timer_after_clear (w : World) :
  Inv w ->
  filter (fun x => is_save (timer_cb x))
    match saveTimeoutRef (ui w) with
    | Some t => clear_timer t (timers w)
    | None => timers w
    end = [].
Proof.
  intros [_ _ Hsave _ _].
  induction (timers w) as [| x l IH].
  - destruct (saveTimeoutRef (ui w)); reflexivity.
  - inversion Hsave as [| y l' Hx Hl]; subst. specialize (IH Hl).
    destruct (saveTimeoutRef (ui w)) as [t |] eqn:Href; cbn.
    + destruct (Nat.eqb (timer_id x) t) eqn:Hid; cbn; [exact IH |].
      destruct (is_save (timer_cb x)) eqn:Hs; [| exact IH].
      destruct (Hx Hs) as [Heq _]. rewrite Href in Heq.
      inversion Heq; subst t.
      rewrite Nat.eqb_refl in Hid. discriminate.
    + destruct (is_save (timer_cb x)) eqn:Hs; [| exact IH].
      destruct (Hx Hs) as [Heq _]. rewrite Href in Heq. discriminate.
Qed.

Lemma Inv_handleContentChange (c : string) (w : World) :
  Inv w -> Inv (dispatch (DChange c) (handleContentChange c) w).
Proof.
  intro Hw. pose proof (no_save_timer_after_clear Hw) as Hnone.
  destruct Hw as [Hfresh Hnodup Hsave Hparked Hhist].
  unfold dispatch. rewrite exec_handleContentChange.
  cbn [ui now timers next_timer toasts parked history with_history] in *.
  set (old := match saveTimeoutRef (ui w) with
              | Some t => clear_timer t (timers w)
              | None => timers w
              end) in *.
  assert (Hold_fresh : Forall (fun x => timer_id x < next_timer w)%nat old).
  { unfold old. destruct (saveTimeoutRef (ui w)); [apply Forall_filter |]; assumption. }
  assert (Hold_nodup : NoDup (map timer_id old)).
  { unfold old. destruct (saveTimeoutRef (ui w)); [apply NoDup_clear_timer |]; assumption. }
  constructor; cbn.
  - apply Forall_app. split.
    + eapply Forall_impl; [| exact Hold_fresh]. cbn. intros; lia.
    + repeat constructor.
  - rewrite map_app. cbn. apply NoDup_snoc; [assumption |].
    apply fresh_not_in. assumption.
  - apply Forall_app. split.
    + rewrite Forall_forall. intros x Hx Hs. exfalso.
      assert (Hin : In x (filter (fun x => is_save (timer_cb x)) old)).
      { apply filter_In. split; assumption. }
      rewrite Hnone in Hin. exact Hin.
    + constructor; [| constructor].
      intros _. cbn. split; [reflexivity |].
      exists (now w), c. repeat split.
  - assumption.
  - split; [exact I | assumption].
Qed.

Lemma Forall_remove_nth {A} (P : A -> Prop) (n : nat) (l : list A) :
  Forall P l -> Forall P (remove_nth n l).
Proof.
  intro H. revert n. induction H as [| x l Hx Hl IH]; intro n.
  - destruct n; constructor.
  - destruct n; cbn; [assumption | constructor; auto].
Qed.

Lemma Inv_dispatch_quiet (d : Dispatched) (t : Task unit) (w : World) :
  (forall c, d <> DChange c) ->
  on_time (now w) d (history w) ->
  quiet t -> Inv w -> Inv (dispatch d t w).
Proof.
  intros Hd Hon Ht Hw. unfold dispatch.
  apply Inv_exec_quiet; [assumption |].
  apply Inv_record; assumption.
Qed.

Lemma Inv_handleManualSave (base cid : string) (w : World) :
  Inv w ->
  Inv (dispatch (DClickSave (content (ui w))) (handleManualSave base cid) w).
Proof.
  intro Hw. unfold dispatch.
  assert (Hrec : Inv (with_history
                        ((now w, DClickSave (content (ui w))) :: history w) w)).
  { apply Inv_record; [discriminate | exact I | assumption]. }
  revert Hrec. generalize (with_history
                        ((now w, DClickSave (content (ui w))) :: history w) w).
  intros w1 Hw1.
  unfold handleManualSave, read.
  cbn [bind ret Monad_Task task_bind exec].
  destruct (saveTimeoutRef (ui w1)) as [t |];
    cbn [clearTimeout task_bind exec].
  - apply (Inv_exec_quiet (quiet_saveContent base cid _)).
    apply Inv_clear_timer. assumption.
  - apply (Inv_exec_quiet (quiet_saveContent base cid _)). assumption.
Qed.

Section LoopFacts.
Variable API_BASE_URL : string.
Variable clipboardId : string.
Variable href : string.

Lemma Inv_initial : Inv initial.
Proof.
  constructor; cbn; constructor.
Qed.

Lemma Inv_mounted : Inv (mounted API_BASE_URL clipboardId).
Proof.
  apply Inv_dispatch_quiet.
  - discriminate.
  - exact I.
  - apply quiet_fetchClipboard.
  - apply Inv_initial.
Qed.

Lemma Inv_step (i : Input) (w w' : World) :
  Inv w -> step API_BASE_URL clipboardId href i w = Some w' -> Inv w'.
Proof.
  intros Hw Hstep. destruct i as [d | c | | | | t | n o | n o]; unfold step in Hstep.
  - destruct (Z.leb 0 d); inversion Hstep; subst.
    apply Inv_with_now. assumption.
  - inversion Hstep; subst. apply Inv_handleContentChange. assumption.
  - inversion Hstep; subst. apply Inv_handleManualSave. assumption.
  - inversion Hstep; subst.
    apply Inv_dispatch_quiet; auto using quiet_copyContent; [discriminate | exact I].
  - inversion Hstep; subst.
    apply Inv_dispatch_quiet; auto using quiet_copyLink; [discriminate | exact I].
  - destruct (find _ (timers w)) as [x |] eqn:Hfind; [| discriminate].
    destruct (Z.leb (timer_due x) (now w)) eqn:Hdue; inversion Hstep; subst.
    apply find_some in Hfind. destruct Hfind as [Hin Hid].
    apply Nat.eqb_eq in Hid. apply Z.leb_le in Hdue.
    apply Inv_dispatch_quiet.
    + discriminate.
    + cbn. destruct (timer_cb x) as [c | |] eqn:Hcb; cbn; try exact I.
      pose proof (inv_save Hw) as Hsave. rewrite Forall_forall in Hsave.
      destruct (Hsave x Hin) as [_ [t0 [c0 [Hlast [Hc0 Ht0]]]]].
      { rewrite Hcb. reflexivity. }
      rewrite Hcb in Hc0. inversion Hc0; subst c0.
      exists t0. split; [assumption | lia].
    + apply quiet_run_callback.
    + apply Inv_clear_timer. assumption.
  - destruct (nth_error (parked w) n) as [[r k | x k] |] eqn:Hn;
      inversion Hstep; subst.
    apply nth_error_In in Hn.
    pose proof (inv_parked Hw) as Hp. rewrite Forall_forall in Hp.
    apply Inv_exec_quiet; [exact (Hp _ Hn o) |].
    apply Inv_with_parked; [| assumption].
    apply Forall_remove_nth. apply (inv_parked Hw).
  - destruct (nth_error (parked w) n) as [[r k | x k] |] eqn:Hn;
      inversion Hstep; subst.
    apply nth_error_In in Hn.
    pose proof (inv_parked Hw) as Hp. rewrite Forall_forall in Hp.
    apply Inv_exec_quiet; [exact (Hp _ Hn o) |].
    apply Inv_with_parked; [| assumption].
    apply Forall_remove_nth. apply (inv_parked Hw).
Qed.

Lemma Inv_steps (l : list Input) :
  forall w w', Inv w -> steps API_BASE_URL clipboardId href l w = Some w' -> Inv w'.
Proof.
  induction l as [| i l IH]; intros w w' Hw Hrun; cbn in Hrun.
  - inversion Hrun; subst. assumption.
  - destruct (step API_BASE_URL clipboardId href i w) as [w1 |] eqn:Hstep; [| discriminate].
    eapply IH; [| exact Hrun]. eapply Inv_step; eassumption.
Qed.
End LoopFacts.

(** ** Consequences of the invariant *)

Lemma at_most_one_tracked (r : option TimerId) (p : Timer -> bool) (l : list Timer) :
  NoDup (map timer_id l) ->
  Forall (fun x => p x = true -> r = Some (timer_id x)) l ->
  (List.length (filter p l) <= 1)%nat.
Proof.
  intros Hnodup Hall. induction l as [| x l IH]; cbn; [lia |].
  inversion Hnodup as [| y l' Hx Hl]; subst.
  inversion Hall as [| y l' Hpx Hrest]; subst.
  specialize (IH Hl Hrest).
  destruct (p x) eqn:Hp; [| exact IH].
  assert (Hnone : filter p l = []).
  { destruct (filter p l) as [| z l'] eqn:Hf; [reflexivity |]. exfalso.
    assert (Hz : In z (filter p l)) by (rewrite Hf; left; reflexivity).
    apply filter_In in Hz. destruct Hz as [Hzin Hpz].
    rewrite Forall_forall in Hrest.
    pose proof (Hrest z Hzin Hpz) as Hrz. rewrite (Hpx eq_refl) in Hrz.
    inversion Hrz as [Hid]. apply Hx. rewrite Hid.
    apply in_map. assumption. }
  rewrite Hnone. cbn. lia.
Qed.

Lemma Inv_one_save_timer (w : World) :
  Inv w -> (List.length (save_timers w) <= 1)%nat.
Proof.
  intros [_ Hnodup Hsave _ _]. unfold save_timers.
  apply at_most_one_tracked with (r := saveTimeoutRef (ui w)); [assumption |].
  eapply Forall_impl; [| exact Hsave].
  intros x Hx Hs. destruct (Hx Hs) as [Href _]. exact Href.
Qed.

Lemma debounced_entry (h1 h2 : list (Z * Dispatched)) (t : Z) (d : Dispatched) :
  debounced (h1 ++ (t, d) :: h2) -> on_time t d h2.
Proof.
  induction h1 as [| [t1 d1] h1 IH]; cbn.
  - intros [H _]. exact H.
  - intros [_ H]. apply IH. exact H.
Qed.

Lemma save_timers_handleContentChange (c : string) (w : World) :
  Inv w ->
  save_timers (exec (handleContentChange c) w) =
  [{| timer_id := next_timer w; timer_due := now w + 1500;
      timer_cb := CbSaveContent c |}].
Proof.
  intro Hw. rewrite exec_handleContentChange. unfold save_timers.
  cbn [timers]. rewrite filter_app, (no_save_timer_after_clear Hw).
  reflexivity.
Qed.

(** ** Saving and loading *)

(** C9.  [saveContent] called with the content last saved changes nothing:
    no request is parked, no state cell, ref, toast or timer is touched. *)
Theorem saveContent_unchanged_noop :
  forall (API_BASE_URL clipboardId : string) (w : World),
    exec (saveContent API_BASE_URL clipboardId (lastSavedContent (ui w))) w = w.
Proof.
  intros base cid w. unfold saveContent, read.
  cbn [bind ret Monad_Task task_bind exec].
  rewrite String.eqb_refl. reflexivity.
Qed.

(** C2.  [saveContent c], for [c] other than the content last saved, sets
    [isSaving] and awaits the PUT request of [updateClipboard(clipboardId, c)].
    When that request is answered ok with a body [data], the rest of
    [saveContent] stores [data] as the clipboard record, sets
    [lastSavedContent] to [c] and [hasChanges] to false (and [isSaving] back
    to false), whatever happened to the editor in between. *)
Theorem saveContent_persists :
  forall (API_BASE_URL clipboardId c : string) (w : World),
    c <> lastSavedContent (ui w) ->
    exists k,
      exec (saveContent API_BASE_URL clipboardId c) w =
        with_parked
          (parked w ++ [AwaitingFetch (update_request API_BASE_URL clipboardId c) k])
          (with_ui (with_isSaving true (ui w)) w) /\
      forall (r : Response Api.Clipboard) (data : Api.Clipboard) (w2 : World),
        ok r = true ->
        json r = Returns data ->
        exec (k (Returns r)) w2 =
          with_ui
            (with_isSaving false
               (with_hasChanges false
                  (with_lastSavedContent c
                     (with_clipboard (Some data) (ui w2))))) w2.
Proof.
  intros base cid c w Hc. apply String.eqb_neq in Hc.
  unfold saveContent, read, update_request, Api.updateClipboard.
  generalize (JSON_stringify (JObj [("content", JStr c)])). intro body.
  cbn. rewrite Hc. cbn.
  eexists. split; [reflexivity |].
  intros r data w2 Hok Hjson. cbn. rewrite Hok. cbn. rewrite Hjson. reflexivity.
Qed.

(** C3, as amended.  [saveContent c], for [c] other than the content last
    saved, only sets [isSaving] and parks the PUT request before its
    [await].  If [updateClipboard] then throws, the rest of [saveContent]
    adds one destructive toast and sets [isSaving] to false, in whatever
    state the editor is by then; content, [lastSavedContent], [hasChanges]
    and the clipboard record stay as they are, so a failed save with nothing
    in between leaves the editor as it was, with [isSaving] false and the
    toast.  [fetchClipboard] only sets [isLoading], clears the error and
    parks the GET request before its [await] (on mounting this changes no
    state cell).  If [getClipboard] then throws, the rest of
    [fetchClipboard] sets the error message and sets [isLoading] to false,
    and nothing else. *)
Theorem failures_toast_or_error :
  forall (API_BASE_URL clipboardId c : string) (w : World),
    c <> lastSavedContent (ui w) ->
    (exists k,
        exec (saveContent API_BASE_URL clipboardId c) w =
          with_parked
            (parked w ++
             [AwaitingFetch (update_request API_BASE_URL clipboardId c) k])
            (with_ui (with_isSaving true (ui w)) w) /\
        forall (o : FetchOutcome Api.Clipboard) (e : Thrown),
          result_of (fun _ => o)
            (Api.updateClipboard API_BASE_URL clipboardId c) = Throws e ->
          (forall w2 : World,
              exec (k o) w2 =
                with_toasts
                  (toasts w2 ++
                   [{| title := "Failed to save";
                       description := message_or e "Could not save changes";
                       variant := Some "destructive" |}])
                  (with_ui (with_isSaving false (ui w2)) w2)) /\
          exec (k o)
            (with_parked (parked w)
               (exec (saveContent API_BASE_URL clipboardId c) w)) =
            with_toasts
              (toasts w ++
               [{| title := "Failed to save";
                   description := message_or e "Could not save changes";
                   variant := Some "destructive" |}])
              (with_ui (with_isSaving false (ui w)) w)) /\
    (exists k,
        (forall w0 : World,
            exec (fetchClipboard API_BASE_URL clipboardId) w0 =
              with_parked
                (parked w0 ++
                 [AwaitingFetch (get_request API_BASE_URL clipboardId) k])
                (with_ui (with_error None (with_isLoading true (ui w0))) w0)) /\
        mounted API_BASE_URL clipboardId =
          with_parked
            [AwaitingFetch (get_request API_BASE_URL clipboardId) k]
            (with_history [(0%Z, DMount)] initial) /\
        forall (o : FetchOutcome Api.Clipboard) (e : Thrown),
          result_of (fun _ => o)
            (Api.getClipboard API_BASE_URL clipboardId) = Throws e ->
          (forall w2 : World,
              exec (k o) w2 =
                with_ui
                  (with_isLoading false
                     (with_error
                        (Some (message_or e "Failed to load clipboard"))
                        (ui w2))) w2) /\
          exec (k o) (with_parked [] (mounted API_BASE_URL clipboardId)) =
            with_ui
              (with_isLoading false
                 (with_error (Some (message_or e "Failed to load clipboard"))
                    (ui initial)))
              (with_history [(0%Z, DMount)] initial)).
Proof.
  intros base cid c w Hc. apply String.eqb_neq in Hc. split.
  - unfold result_of.
    unfold saveContent, read, update_request, Api.updateClipboard.
    generalize (JSON_stringify (JObj [("content", JStr c)])). intro body.
    cbn. rewrite Hc. cbn.
    eexists. split; [reflexivity |].
    intros o e. destruct o as [r | e0]; cbn.
    + destruct (ok r); cbn.
      * destruct (json r); cbn; intro H; inversion H; subst.
        split; [intro w2 |]; reflexivity.
      * destruct (Z.eqb (status r) 404); cbn; intro H; inversion H; subst;
          (split; [intro w2 |]; reflexivity).
    + intro H; inversion H; subst. split; [intro w2 |]; reflexivity.
  - unfold result_of, mounted, dispatch, fetchClipboard, get_request,
      Api.getClipboard.
    cbn. eexists. split; [intro w0; reflexivity |].
    split; [reflexivity |].
    intros o e. destruct o as [r | e0]; cbn.
    + destruct (ok r); cbn.
      * destruct (json r); cbn; intro H; inversion H; subst.
        split; [intro w2 |]; reflexivity.
      * destruct (Z.eqb (status r) 404); cbn; intro H; inversion H; subst;
          (split; [intro w2 |]; reflexivity).
    + intro H; inversion H; subst. split; [intro w2 |]; reflexivity.
Qed.

(** C3 as first stated fails: when the first fetch fails, the editor also
    leaves its loading state, besides showing the error. *)
Lemma failed_fetch_clears_isLoading :
  let w := mounted "https://clip.example" "abc" in
  match step "https://clip.example" "abc" "https://app.example/abc"
          (FetchSettles 0 (Throws (ErrorObj "Failed to fetch"))) w with
  | Some w' =>
      isLoading (ui w) = true /\
      ui w' <> with_error (Some "Failed to fetch") (ui w)
  | None => False
  end.
Proof.
  cbn. split; [reflexivity | discriminate].
Qed.

(** ** The theorems at work on a concrete session *)

Lemma saveContent_persists_witness :
  exists k,
    exec (saveContent "https://clip.example" "abc" "hello") initial =
      with_parked
        (parked initial ++
         [AwaitingFetch (update_request "https://clip.example" "abc" "hello") k])
        (with_ui (with_isSaving true (ui initial)) initial) /\
    forall (r : Response Api.Clipboard) (data : Api.Clipboard) (w2 : World),
      ok r = true ->
      json r = Returns data ->
      exec (k (Returns r)) w2 =
        with_ui
          (with_isSaving false
             (with_hasChanges false
                (with_lastSavedContent "hello"
                   (with_clipboard (Some data) (ui w2))))) w2.
Proof.
  assert (H : "hello" <> lastSavedContent (ui initial)) by (cbn; discriminate).
  exact (@saveContent_persists "https://clip.example" "abc" "hello" initial H).
Defined.

Lemma failures_toast_or_error_witness :
  exists k,
    exec (saveContent "https://clip.example" "abc" "hello") initial =
      with_parked
        (parked initial ++
         [AwaitingFetch (update_request "https://clip.example" "abc" "hello") k])
        (with_ui (with_isSaving true (ui initial)) initial) /\
    exec (k (Throws (ErrorObj "Failed to fetch")))
      (with_parked (parked initial)
         (exec (saveContent "https://clip.example" "abc" "hello") initial)) =
      with_toasts
        (toasts initial ++
         [{| title := "Failed to save";
             description := "Failed to fetch";
             variant := Some "destructive" |}])
        (with_ui (with_isSaving false (ui initial)) initial).
Proof.
  assert (H : "hello" <> lastSavedContent (ui initial)) by (cbn; discriminate).
  destruct (proj1 (@failures_toast_or_error
                     "https://clip.example" "abc" "hello" initial H))
    as [k [Hhead Htail]].
  exists k. split; [exact Hhead |].
  exact (proj2 (Htail (Throws (ErrorObj "Failed to fetch"))
                  (ErrorObj "Failed to fetch") eq_refl)).
Defined.


(** ** Concrete runs *)

(** The body sent for a content with a double quote, a line feed and a
    backslash in it. *)
Example update_body_example :
  req_body (update_request "https://clip.example" "abc"
              (String "a" (String dquote (String "010"%char "b\c")))) =
  Some (String.concat (String dquote "")
          ["{"; "content"; ":"; "a\"; "\nb\\c"; "}"]).
Proof. reflexivity. Qed.

(** The copy logs around a failed read; the error thrown is the same as in
    [src/lib/api.ts]. *)
Example copy_getClipboard_not_found :
  run example_net (ApiCopy.getClipboard "https://clip.example" "zzz") =
  ([EvConsole LevelLog [LStr "Fetching clipboard:"; LStr "zzz"];
    EvFetch {| req_url := "https://clip.example/clipboard/zzz";
               req_method := None;
               req_headers := [];
               req_body := None;
               req_mode := Some "cors" |};
    EvConsole LevelError
      [LStr "Get clipboard failed:"; LNum 404; LStr "Not Found"]],
   Throws (ErrorObj "Clipboard not found")).
Proof. reflexivity. Qed.

(** After [example_session] the second edit is being saved: one request is
    parked, no timer is left, and the first edit was never sent. *)
Example example_session_outcome :
  match steps "https://clip.example" "abc" "https://app.example/abc"
          example_session (mounted "https://clip.example" "abc") with
  | Some w =>
      content (ui w) = "hello!!" /\
      lastSavedContent (ui w) = "hello" /\
      isSaving (ui w) = true /\
      timers w = [] /\
      (exists k,
          parked w =
          [AwaitingFetch
             (update_request "https://clip.example" "abc" "hello!!") k]) /\
      map snd (history w) =
        [DTimer 2 (CbSaveContent "hello!!"); DChange "hello!!";
         DChange "hello!"; DMount]
  | None => False
  end.
Proof.
  vm_compute. repeat split. eexists. reflexivity.
Qed.

(** * Further properties *)

(** ** The client: error messages and console output *)

(** X1.  On a response that is not ok, whatever its body: [createClipboard]
    throws the error "Failed to create clipboard" for every status, 404
    included; [getClipboard] and [updateClipboard] throw "Clipboard not
    found" exactly for status 404 and "Failed to fetch clipboard",
    respectively "Failed to update clipboard", for every other status. *)
Theorem client_error_messages :
  forall (J : Type) (baseUrl clipboardId content : string)
         (st : Z) (txt : string) (body : Completion J),
    let answer : Net J :=
      fun _ => Returns {| ok := false; status := st; statusText := txt;
                          json := body |} in
    result_of answer (Api.createClipboard baseUrl) =
      Throws (ErrorObj "Failed to create clipboard") /\
    result_of answer (Api.getClipboard baseUrl clipboardId) =
      Throws (ErrorObj (if Z.eqb st 404 then "Clipboard not found"
                        else "Failed to fetch clipboard")) /\
    result_of answer (Api.updateClipboard baseUrl clipboardId content) =
      Throws (ErrorObj (if Z.eqb st 404 then "Clipboard not found"
                        else "Failed to update clipboard")).
Proof.
  intros J baseUrl clipboardId content st txt body answer.
  unfold result_of.
  rewrite run_createClipboard, run_getClipboard, run_updateClipboard.
  unfold answer. cbn [snd ok status].
  destruct (Z.eqb st 404); repeat split.
Qed.

(** X2.  The client of [src/lib/api.ts] writes nothing to the console.  Its
    copy logs the identifier before every read, then one more line: the
    status and status text when the response is not ok, the parsed body
    (the clipboard with its content) when the read succeeds, and nothing
    when the fetch rejects or the body is not JSON.  It logs the body of a
    successful create in the same way. *)
Theorem copy_console_output :
  forall (J : Type) (baseUrl clipboardId content : string) (net : Net J),
    trace_of net (Api.createClipboard baseUrl) =
      [EvFetch (create_request baseUrl)] /\
    trace_of net (Api.getClipboard baseUrl clipboardId) =
      [EvFetch (get_request baseUrl clipboardId)] /\
    trace_of net (Api.updateClipboard baseUrl clipboardId content) =
      [EvFetch (update_request baseUrl clipboardId content)] /\
    trace_of net (Api.checkHealth baseUrl) =
      [EvFetch (health_request baseUrl)] /\
    trace_of net (ApiCopy.getClipboard baseUrl clipboardId) =
      EvConsole LevelLog [LStr "Fetching clipboard:"; LStr clipboardId]
      :: EvFetch (default_mode (get_request baseUrl clipboardId))
      :: match net (default_mode (get_request baseUrl clipboardId)) with
         | Throws _ => []
         | Returns r =>
             if ok r then
               match json r with
               | Returns data =>
                   [EvConsole LevelLog
                      [LStr "Get clipboard response:"; LVal data]]
               | Throws _ => []
               end
             else
               [EvConsole LevelError
                  [LStr "Get clipboard failed:"; LNum (status r);
                   LStr (statusText r)]]
         end /\
    trace_of net (ApiCopy.createClipboard baseUrl) =
      EvFetch (default_mode (create_request baseUrl))
      :: match net (default_mode (create_request baseUrl)) with
         | Throws _ => []
         | Returns r =>
             if ok r then
               match json r with
               | Returns data =>
                   [EvConsole LevelLog
                      [LStr "Create clipboard response:"; LVal data]]
               | Throws _ => []
               end
             else []
         end.
Proof.
  intros J baseUrl clipboardId content net.
  unfold trace_of.
  rewrite run_createClipboard, run_getClipboard, run_updateClipboard,
    run_checkHealth.
  cbn [fst]. repeat split.
  - unfold ApiCopy.getClipboard, get_request, default_mode; cbn.
    destruct (net _) as [r | e]; cbn; [| reflexivity].
    destruct (ok r); cbn.
    + destruct (json r); reflexivity.
    + destruct (Z.eqb (status r) 404); reflexivity.
  - unfold ApiCopy.createClipboard, create_request, default_mode; cbn.
    destruct (net _) as [r | e]; cbn; [| reflexivity].
    destruct (ok r); cbn; [| reflexivity].
    destruct (json r); reflexivity.
Qed.

(** ** The shape of the asynchronous handlers *)

Ltac calm_tac :=
  unfold sound; cbn; repeat split; auto; try (intros; discriminate).

Lemma saveContent_shape (base cid c : string) :
  exists k,
    (forall w,
        exec (saveContent base cid c) w =
        if String.eqb c (lastSavedContent (ui w)) then w
        else with_parked
               (parked w ++ [AwaitingFetch (update_request base cid c) k])
               (with_ui (with_isSaving true (ui w)) w)) /\
    (forall o, tail_calm (k o)) /\
    (forall (r : Response Api.Clipboard) data w2,
        ok r = true -> json r = Returns data ->
        exec (k (Returns r)) w2 =
        with_ui
          (with_isSaving false
             (with_hasChanges false
                (with_lastSavedContent c
                   (with_clipboard (Some data) (ui w2))))) w2) /\
    (forall o e w2,
        result_of (fun _ => o) (Api.updateClipboard base cid c) = Throws e ->
        exec (k o) w2 =
        with_toasts
          (toasts w2 ++
           [{| title := "Failed to save";
               description := message_or e "Could not save changes";
               variant := Some "destructive" |}])
          (with_ui (with_isSaving false (ui w2)) w2)).
Proof.
  unfold result_of, saveContent, read, update_request, Api.updateClipboard.
  generalize (JSON_stringify (JObj [("content", JStr c)])). intro body.
  eexists. split; [| split; [| split]].
  - intro w. cbn. destruct (String.eqb c (lastSavedContent (ui w))); reflexivity.
  - intros o w. destruct o as [r | e]; cbn.
    + destruct (ok r); cbn.
      * destruct (json r); calm_tac.
      * destruct (Z.eqb (status r) 404); calm_tac.
    + calm_tac.
  - intros r data w2 Hok Hjson. cbn. rewrite Hok. cbn. rewrite Hjson.
    reflexivity.
  - intros o e w2. destruct o as [r | e0]; cbn.
    + destruct (ok r); cbn.
      * destruct (json r); cbn; intro H; inversion H; subst. reflexivity.
      * destruct (Z.eqb (status r) 404); cbn; intro H; inversion H; subst;
          reflexivity.
    + intro H; inversion H; subst. reflexivity.
Qed.

Lemma fetchClipboard_shape (base cid : string) :
  exists k,
    (forall w,
        exec (fetchClipboard base cid) w =
        with_parked (parked w ++ [AwaitingFetch (get_request base cid) k])
          (with_ui (with_error None (with_isLoading true (ui w))) w)) /\
    (forall o, load_tail (k o)) /\
    (forall (r : Response Api.Clipboard) data w2,
        ok r = true -> json r = Returns data ->
        exec (k (Returns r)) w2 =
        with_ui
          (with_isLoading false
             (with_lastSavedContent (Api.content data)
                (with_content (Api.content data)
                   (with_clipboard (Some data) (ui w2))))) w2) /\
    (forall o e w2,
        result_of (fun _ => o) (Api.getClipboard base cid) = Throws e ->
        exec (k o) w2 =
        with_ui
          (with_isLoading false
             (with_error (Some (message_or e "Failed to load clipboard"))
                (ui w2))) w2).
Proof.
  unfold result_of, fetchClipboard, get_request, Api.getClipboard.
  eexists. split; [| split; [| split]].
  - intro w. cbn. reflexivity.
  - intros o w. destruct o as [r | e]; cbn.
    + destruct (ok r); cbn.
      * destruct (json r); cbn; repeat split.
      * destruct (Z.eqb (status r) 404); cbn; repeat split.
    + repeat split.
  - intros r data w2 Hok Hjson. cbn. rewrite Hok. cbn. rewrite Hjson.
    reflexivity.
  - intros o e w2. destruct o as [r | e0]; cbn.
    + destruct (ok r); cbn.
      * destruct (json r); cbn; intro H; inversion H; subst. reflexivity.
      * destruct (Z.eqb (status r) 404); cbn; intro H; inversion H; subst;
          reflexivity.
    + intro H; inversion H; subst. reflexivity.
Qed.

Lemma copyContent_shape :
  exists k,
    (forall w,
        exec copyContent w =
        with_parked (parked w ++ [AwaitingWriteText (content (ui w)) k]) w) /\
    (forall o, tail_calm (k o)) /\
    (forall w2,
        exec (k (Returns tt)) w2 =
        copied with_copiedContent CbResetCopiedContent
          {| title := "Copied!";
             description := "Content copied to clipboard";
             variant := None |} w2) /\
    (forall e w2,
        exec (k (Throws e)) w2 =
        with_toasts
          (toasts w2 ++ [{| title := "Failed to copy";
                            description := "Could not copy to clipboard";
                            variant := Some "destructive" |}]) w2).
Proof.
  unfold copyContent, copied, read, writeText.
  eexists. split; [| split; [| split]].
  - intro w. cbn. reflexivity.
  - intros o w. destruct o as [[] | e]; calm_tac.
  - intro w2. reflexivity.
  - intros e w2. reflexivity.
Qed.

Lemma copyLink_shape (href : string) :
  exists k,
    (forall w,
        exec (copyLink href) w =
        with_parked (parked w ++ [AwaitingWriteText href k]) w) /\
    (forall o, tail_calm (k o)) /\
    (forall w2,
        exec (k (Returns tt)) w2 =
        copied with_copiedLink CbResetCopiedLink
          {| title := "Link copied!";
             description := "Share this link with anyone";
             variant := None |} w2) /\
    (forall e w2,
        exec (k (Throws e)) w2 =
        with_toasts
          (toasts w2 ++ [{| title := "Failed to copy";
                            description := "Could not copy link";
                            variant := Some "destructive" |}]) w2).
Proof.
  unfold copyLink, copied, writeText.
  eexists. split; [| split; [| split]].
  - intro w. cbn. reflexivity.
  - intros o w. destruct o as [[] | e]; calm_tac.
  - intro w2. reflexivity.
  - intros e w2. reflexivity.
Qed.

(** ** The loading invariant *)

Lemma exec_handleManualSave (base cid : string) (w : World) :
  exec (handleManualSave base cid) w =
  exec (saveContent base cid (content (ui w)))
    match saveTimeoutRef (ui w) with
    | Some t => with_timers (clear_timer t (timers w)) w
    | None => w
    end.
Proof.
  unfold handleManualSave, read.
  cbn [bind ret Monad_Task task_bind exec].
  destruct (saveTimeoutRef (ui w)); reflexivity.
Qed.

Lemma head_calm_saveContent (base cid c : string) :
  head_calm (saveContent base cid c).
Proof.
  destruct (saveContent_shape base cid c) as [k [Hexec [Hcalm _]]].
  intro w. rewrite Hexec.
  destruct (String.eqb c (lastSavedContent (ui w))).
  - repeat split. exists []. rewrite app_nil_r. split; [reflexivity | constructor].
  - cbn. repeat split. eexists. split; [reflexivity |].
    constructor; [exact Hcalm | constructor].
Qed.

Lemma head_calm_handleManualSave (base cid : string) :
  head_calm (handleManualSave base cid).
Proof.
  intro w. rewrite exec_handleManualSave.
  destruct (saveTimeoutRef (ui w)) as [t |].
  - apply (head_calm_saveContent base cid (content (ui w))
             (with_timers (clear_timer t (timers w)) w)).
  - apply head_calm_saveContent.
Qed.

Lemma head_calm_copyContent : head_calm copyContent.
Proof.
  destruct copyContent_shape as [k [Hexec [Hcalm _]]].
  intro w. rewrite Hexec. cbn. repeat split.
  eexists. split; [reflexivity |]. constructor; [exact Hcalm | constructor].
Qed.

Lemma head_calm_copyLink (href : string) : head_calm (copyLink href).
Proof.
  destruct (copyLink_shape href) as [k [Hexec [Hcalm _]]].
  intro w. rewrite Hexec. cbn. repeat split.
  eexists. split; [reflexivity |]. constructor; [exact Hcalm | constructor].
Qed.

Lemma head_calm_run_callback (base cid : string) (cb : Callback) :
  head_calm (run_callback base cid cb).
Proof.
  destruct cb; cbn [run_callback].
  - apply head_calm_saveContent.
  - intro w. cbn. repeat split. exists []. rewrite app_nil_r.
    split; [reflexivity | constructor].
  - intro w. cbn. repeat split. exists []. rewrite app_nil_r.
    split; [reflexivity | constructor].
Qed.

Lemma Calm_ext (w w' : World) :
  isLoading (ui w') = isLoading (ui w) ->
  parked w' = parked w ->
  Calm w -> Calm w'.
Proof.
  unfold Calm. intros HL HP. rewrite HL, HP. auto.
Qed.

Lemma Calm_more (w w' : World) (extra : list Parked) :
  isLoading (ui w') = isLoading (ui w) ->
  parked w' = (parked w ++ extra)%list ->
  Forall calm_parked extra ->
  Calm w -> Calm w'.
Proof.
  unfold Calm. intros HL HP Hextra. rewrite HL, HP.
  destruct (isLoading (ui w)).
  - intros [p [rest [Hp [Hload Hrest]]]]. exists p, (rest ++ extra)%list.
    rewrite Hp. repeat split; auto. apply Forall_app. auto.
  - intro H. apply Forall_app. auto.
Qed.

Lemma PageOK_same (w w' : World) :
  isLoading (ui w') = isLoading (ui w) ->
  content (ui w') = content (ui w) ->
  lastSavedContent (ui w') = lastSavedContent (ui w) ->
  hasChanges (ui w') = hasChanges (ui w) ->
  PageOK w -> PageOK w'.
Proof.
  unfold PageOK, sound. intros HL HC HS HH. rewrite HL, HC, HS, HH. auto.
Qed.

(** What starting a calm handler keeps. *)
Lemma head_facts (t : Task unit) (w0 w : World) :
  head_calm t ->
  ui w0 = ui w -> parked w0 = parked w ->
  Calm w ->
  Calm (exec t w0) /\
  isLoading (ui (exec t w0)) = isLoading (ui w) /\
  content (ui (exec t w0)) = content (ui w) /\
  error (ui (exec t w0)) = error (ui w) /\
  (PageOK w -> PageOK (exec t w0)).
Proof.
  intros Ht Hui Hp Hw.
  destruct (Ht w0) as [HL [HC [HS [HH [HE [extra [Hpk Hextra]]]]]]].
  rewrite Hui in HL, HC, HS, HH, HE. rewrite Hp in Hpk.
  split; [eapply Calm_more; eauto |].
  split; [assumption |]. split; [assumption |]. split; [assumption |].
  apply PageOK_same; assumption.
Qed.

Lemma nth_error_tails_calm (l : list Parked) (n : nat) (p : Parked) (t : Task unit) :
  Forall calm_parked l -> nth_error l n = Some p -> tails p t -> tail_calm t.
Proof.
  intros Hl Hn Ht. apply nth_error_In in Hn.
  rewrite Forall_forall in Hl. specialize (Hl p Hn).
  destruct p as [r k | x k]; cbn in Hl, Ht; destruct Ht as [o Ho]; subst t;
    apply Hl.
Qed.

(** What resuming a parked function keeps. *)
Lemma resume_facts (w : World) (n : nat) (p : Parked) (t : Task unit) :
  Calm w ->
  nth_error (parked w) n = Some p ->
  tails p t ->
  Calm (exec t (with_parked (remove_nth n (parked w)) w)) /\
  (isLoading (ui w) = false ->
   isLoading (ui (exec t (with_parked (remove_nth n (parked w)) w))) = false /\
   error (ui (exec t (with_parked (remove_nth n (parked w)) w))) = error (ui w) /\
   content (ui (exec t (with_parked (remove_nth n (parked w)) w)))
     = content (ui w)) /\
  (PageOK w -> PageOK (exec t (with_parked (remove_nth n (parked w)) w))).
Proof.
  intros Hw Hn Ht. unfold Calm in Hw.
  remember (with_parked (remove_nth n (parked w)) w) as w0 eqn:Hw0.
  assert (Hui : ui w0 = ui w) by (subst w0; reflexivity).
  assert (Hpk0 : parked w0 = remove_nth n (parked w)) by (subst w0; reflexivity).
  clear Hw0.
  destruct (isLoading (ui w)) eqn:HL.
  - destruct Hw as [p0 [rest [Hp [Hload Hrest]]]].
    rewrite Hp in Hn, Hpk0. destruct n as [| m]; cbn in Hn, Hpk0.
    + inversion Hn; subst p0.
      assert (Hlt : load_tail t).
      { destruct p as [r k | x k]; cbn in Hload, Ht; [| contradiction].
        destruct Ht as [o Ho]; subst t. apply Hload. }
      destruct (Hlt w0) as [Hpk [HL' HH]].
      rewrite Hpk0 in Hpk. rewrite Hui in HH.
      split; [| split].
      * unfold Calm. rewrite HL', Hpk. exact Hrest.
      * discriminate.
      * intros [_ Hfalse]. split.
        -- unfold sound. intro Htrue. rewrite HH, (Hfalse HL) in Htrue.
           discriminate.
        -- intro Htrue. rewrite HL' in Htrue. discriminate.
    + assert (Hc : tail_calm t) by (eapply nth_error_tails_calm; eassumption).
      destruct (Hc w0) as [Hpk [HL' [HC [HE [HH HS]]]]].
      rewrite Hpk0 in Hpk. rewrite Hui in HL', HC, HE, HH, HS.
      split; [| split].
      * unfold Calm. rewrite HL', HL, Hpk.
        exists p0, (remove_nth m rest). repeat split; auto.
        apply Forall_remove_nth. assumption.
      * discriminate.
      * intros [Hs Hfalse]. split; [apply HS; exact Hs |].
        intros _.
        destruct (hasChanges (ui (exec t w0))) eqn:Hafter; [| reflexivity].
        rewrite (HH eq_refl) in Hfalse. discriminate (Hfalse HL).
  - assert (Hc : tail_calm t) by (eapply nth_error_tails_calm; eassumption).
    destruct (Hc w0) as [Hpk [HL' [HC [HE [HH HS]]]]].
    rewrite Hpk0 in Hpk. rewrite Hui in HL', HC, HE, HH, HS.
    split; [| split].
    + unfold Calm. rewrite HL', HL, Hpk. apply Forall_remove_nth. assumption.
    + intros _. rewrite HL'. auto.
    + intros [Hs _]. split; [apply HS; exact Hs |].
      intro Htrue. rewrite HL', HL in Htrue. discriminate.
Qed.

Lemma offered_Change_loaded (c : string) (w : World) :
  offered (Change c) w = true -> isLoading (ui w) = false.
Proof.
  unfold offered, screen. destruct (isLoading (ui w)); [discriminate | reflexivity].
Qed.

Lemma step_facts (base cid href : string) (i : Input) (w w' : World) :
  Calm w ->
  step base cid href i w = Some w' ->
  Calm w' /\
  (isLoading (ui w) = false ->
   isLoading (ui w') = false /\
   error (ui w') = error (ui w) /\
   ((forall c, i <> Change c) -> content (ui w') = content (ui w))) /\
  (PageOK w -> offered i w = true -> PageOK w').
Proof.
  intros Hw Hstep.
  destruct i as [d | c | | | | t | n o | n o]; unfold step in Hstep.
  - destruct (Z.leb 0 d); inversion Hstep; subst.
    split; [| split].
    + eapply Calm_ext; [| | exact Hw]; reflexivity.
    + intro HL. cbn. auto.
    + intros HP _. eapply PageOK_same; [| | | | exact HP]; reflexivity.
  - inversion Hstep; subst. unfold dispatch. rewrite exec_handleContentChange.
    split; [| split].
    + eapply Calm_ext; [| | exact Hw]; reflexivity.
    + intro HL. cbn. repeat split; auto.
      intro H. exfalso. apply (H c). reflexivity.
    + intros _ Hoff. apply offered_Change_loaded in Hoff.
      split; cbn.
      * unfold sound; cbn. intro Hh. apply String.eqb_neq.
        destruct (String.eqb c (lastSavedContent (ui w))); [discriminate | reflexivity].
      * rewrite Hoff. discriminate.
  - inversion Hstep; subst. unfold dispatch.
    destruct (@head_facts (handleManualSave base cid)
                (with_history ((now w, DClickSave (content (ui w))) :: history w) w)
                w (head_calm_handleManualSave base cid) eq_refl eq_refl Hw)
      as [HC [HL [Hc [He HP]]]].
    split; [exact HC | split].
    + intro H. rewrite HL. auto.
    + intros H _. apply HP. exact H.
  - inversion Hstep; subst. unfold dispatch.
    destruct (@head_facts copyContent
                (with_history ((now w, DClickCopy) :: history w) w)
                w head_calm_copyContent eq_refl eq_refl Hw)
      as [HC [HL [Hc [He HP]]]].
    split; [exact HC | split].
    + intro H. rewrite HL. auto.
    + intros H _. apply HP. exact H.
  - inversion Hstep; subst. unfold dispatch.
    destruct (@head_facts (copyLink href)
                (with_history ((now w, DClickShare) :: history w) w)
                w (head_calm_copyLink href) eq_refl eq_refl Hw)
      as [HC [HL [Hc [He HP]]]].
    split; [exact HC | split].
    + intro H. rewrite HL. auto.
    + intros H _. apply HP. exact H.
  - destruct (find _ (timers w)) as [x |]; [| discriminate].
    destruct (Z.leb (timer_due x) (now w)); inversion Hstep; subst.
    unfold dispatch.
    destruct (@head_facts (run_callback base cid (timer_cb x))
                (with_history
                   ((now (with_timers (clear_timer t (timers w)) w),
                     DTimer t (timer_cb x))
                    :: history (with_timers (clear_timer t (timers w)) w))
                   (with_timers (clear_timer t (timers w)) w))
                w (head_calm_run_callback base cid (timer_cb x))
                eq_refl eq_refl Hw)
      as [HC [HL [Hc [He HP]]]].
    split; [exact HC | split].
    + intro H. rewrite HL. auto.
    + intros H _. apply HP. exact H.
  - destruct (nth_error (parked w) n) as [[r k | x k] |] eqn:Hn;
      inversion Hstep; subst.
    destruct (@resume_facts w n (AwaitingFetch r k) (k o) Hw Hn)
      as [HC [HF HP]].
    { exists o. reflexivity. }
    split; [exact HC | split].
    + intro HL. destruct (HF HL) as [H1 [H2 H3]]. auto.
    + intros H _. apply HP. exact H.
  - destruct (nth_error (parked w) n) as [[r k | x k] |] eqn:Hn;
      inversion Hstep; subst.
    destruct (@resume_facts w n (AwaitingWriteText x k) (k o) Hw Hn)
      as [HC [HF HP]].
    { exists o. reflexivity. }
    split; [exact HC | split].
    + intro HL. destruct (HF HL) as [H1 [H2 H3]]. auto.
    + intros H _. apply HP. exact H.
Qed.

Lemma Calm_mounted (base cid : string) : Calm (mounted base cid).
Proof.
  destruct (fetchClipboard_shape base cid) as [k [Hexec [Hload _]]].
  unfold mounted, dispatch, Calm. rewrite Hexec. cbn.
  eexists. exists []. split; [reflexivity | split; [exact Hload | constructor]].
Qed.

Lemma PageOK_mounted (base cid : string) : PageOK (mounted base cid).
Proof.
  destruct (fetchClipboard_shape base cid) as [k [Hexec _]].
  unfold mounted, dispatch, PageOK, sound. rewrite Hexec. cbn.
  split; [discriminate | reflexivity].
Qed.

Lemma Calm_steps (base cid href : string) (l : list Input) :
  forall w w', Calm w -> steps base cid href l w = Some w' -> Calm w'.
Proof.
  induction l as [| i l IH]; intros w w' Hw Hrun; cbn in Hrun.
  - inversion Hrun; subst. assumption.
  - destruct (step base cid href i w) as [w1 |] eqn:Hstep; [| discriminate].
    eapply IH; [| exact Hrun]. eapply step_facts; eassumption.
Qed.

Lemma page_steps_facts (base cid href : string) (l : list Input) :
  forall w w',
    Calm w -> PageOK w ->
    page_steps base cid href l w = Some w' ->
    Calm w' /\ PageOK w' /\ steps base cid href l w = Some w'.
Proof.
  induction l as [| i l IH]; intros w w' Hw HP Hrun; cbn in Hrun.
  - inversion Hrun; subst.
    split; [assumption | split; [assumption | reflexivity]].
  - unfold page_step in Hrun.
    destruct (offered i w) eqn:Hoff; [| discriminate].
    destruct (step base cid href i w) as [w1 |] eqn:Hstep; [| discriminate].
    destruct (@step_facts base cid href i w w1 Hw Hstep) as [HC [_ HP1]].
    destruct (IH w1 w' HC (HP1 HP Hoff) Hrun) as [H1 [H2 H3]].
    split; [exact H1 | split; [exact H2 |]].
    cbn. rewrite Hstep. exact H3.
Qed.

(** ** Single turns of the loop, spelled out *)

Lemma step_Advance (base cid href : string) (d : Z) (w : World) :
  (0 <= d)%Z ->
  step base cid href (Advance d) w = Some (with_now (now w + d) w).
Proof.
  intro Hd. unfold step. apply Z.leb_le in Hd. rewrite Hd. reflexivity.
Qed.

Lemma find_timer_last (l : list Timer) (x : Timer) :
  Forall (fun y => timer_id y < timer_id x)%nat l ->
  find (fun y => Nat.eqb (timer_id y) (timer_id x)) (l ++ [x]) = Some x.
Proof.
  induction 1 as [| y l Hy Hl IH]; cbn.
  - rewrite Nat.eqb_refl. reflexivity.
  - assert (Hne : Nat.eqb (timer_id y) (timer_id x) = false)
      by (apply Nat.eqb_neq; lia).
    rewrite Hne. exact IH.
Qed.

Lemma clear_timer_fresh (n : TimerId) (l : list Timer) :
  Forall (fun y => timer_id y < n)%nat l -> clear_timer n l = l.
Proof.
  unfold clear_timer. induction 1 as [| y l Hy Hl IH]; cbn; [reflexivity |].
  assert (Hne : Nat.eqb (timer_id y) n = false) by (apply Nat.eqb_neq; lia).
  rewrite Hne. cbn. rewrite IH. reflexivity.
Qed.

Lemma clear_timer_last (l : list Timer) (x : Timer) :
  Forall (fun y => timer_id y < timer_id x)%nat l ->
  clear_timer (timer_id x) (l ++ [x]) = l.
Proof.
  intro H. unfold clear_timer. rewrite filter_app. cbn.
  rewrite Nat.eqb_refl. cbn. rewrite app_nil_r.
  apply (@clear_timer_fresh (timer_id x) l H).
Qed.

(** The timer set last fires once it is due. *)
Lemma step_TimerFires_last (base cid href : string) (w : World)
    (l : list Timer) (x : Timer) :
  timers w = (l ++ [x])%list ->
  Forall (fun y => timer_id y < timer_id x)%nat l ->
  (timer_due x <= now w)%Z ->
  step base cid href (TimerFires (timer_id x)) w =
  Some (dispatch (DTimer (timer_id x) (timer_cb x))
          (run_callback base cid (timer_cb x)) (with_timers l w)).
Proof.
  intros Ht Hl Hdue. unfold step. rewrite Ht, (@find_timer_last l x Hl).
  apply Z.leb_le in Hdue. rewrite Hdue, (@clear_timer_last l x Hl). reflexivity.
Qed.

Lemma nth_error_last {A} (l : list A) (a : A) :
  nth_error (l ++ [a]) (List.length l) = Some a.
Proof.
  induction l as [| x l IH]; cbn; auto.
Qed.

Lemma remove_nth_last {A} (l : list A) (a : A) :
  remove_nth (List.length l) (l ++ [a]) = l.
Proof.
  induction l as [| x l IH]; cbn; [reflexivity | rewrite IH; reflexivity].
Qed.

(** The function parked last is resumed. *)
Lemma step_FetchSettles_last (base cid href : string) (w : World)
    (l : list Parked) (r : Request) (k : FetchOutcome Api.Clipboard -> Task unit)
    (o : FetchOutcome Api.Clipboard) :
  parked w = (l ++ [AwaitingFetch r k])%list ->
  step base cid href (FetchSettles (List.length l) o) w =
  Some (exec (k o) (with_parked l w)).
Proof.
  intro Hp. unfold step. rewrite Hp, nth_error_last, remove_nth_last.
  reflexivity.
Qed.

Lemma step_WriteTextSettles_last (base cid href : string) (w : World)
    (l : list Parked) (x : string) (k : Completion unit -> Task unit)
    (o : Completion unit) :
  parked w = (l ++ [AwaitingWriteText x k])%list ->
  step base cid href (WriteTextSettles (List.length l) o) w =
  Some (exec (k o) (with_parked l w)).
Proof.
  intro Hp. unfold step. rewrite Hp, nth_error_last, remove_nth_last.
  reflexivity.
Qed.

Lemma kept_timers_fresh (w : World) :
  Inv w -> Forall (fun y => timer_id y < next_timer w)%nat (kept_timers w).
Proof.
  intros [Hfresh _ _ _ _]. unfold kept_timers.
  destruct (saveTimeoutRef (ui w)); [apply Forall_filter |]; assumption.
Qed.

Lemma kept_timers_no_save (w : World) :
  Inv w -> filter (fun x => is_save (timer_cb x)) (kept_timers w) = [].
Proof.
  apply no_save_timer_after_clear.
Qed.

(** ** The debounce *)

Lemma resume_parked (w : World) (n : nat) (p : Parked) (t : Task unit) :
  Calm w ->
  nth_error (parked w) n = Some p ->
  tails p t ->
  forall w0, parked (exec t w0) = parked w0.
Proof.
  intros Hw Hn Ht w0. unfold Calm in Hw.
  destruct (isLoading (ui w)).
  - destruct Hw as [p0 [rest [Hp [Hload Hrest]]]].
    rewrite Hp in Hn. destruct n as [| m]; cbn in Hn.
    + inversion Hn; subst p0.
      destruct p as [r k | x k]; cbn in Hload, Ht; [| contradiction].
      destruct Ht as [o Ho]; subst t. apply Hload.
    + assert (Hc : tail_calm t) by (eapply nth_error_tails_calm; eassumption).
      apply Hc.
  - assert (Hc : tail_calm t) by (eapply nth_error_tails_calm; eassumption).
    apply Hc.
Qed.

(** What one turn of the loop parks. *)
Lemma step_parks (base cid href : string) (i : Input) (w w' : World) :
  Inv w -> Calm w ->
  step base cid href i w = Some w' ->
  match i with
  | TimerFires t =>
      exists x,
        In x (timers w) /\ timer_id x = t /\ (timer_due x <= now w)%Z /\
        match timer_cb x with
        | CbSaveContent c =>
            run_callback base cid (timer_cb x) = saveContent base cid c /\
            (exists t0,
                last_change (history w) = Some (t0, c) /\
                (t0 + 1500 <= now w)%Z) /\
            if String.eqb c (lastSavedContent (ui w))
            then parked w' = parked w
            else sends w w' (update_request base cid c)
        | _ => parked w' = parked w
        end
  | ClickSave =>
      if String.eqb (content (ui w)) (lastSavedContent (ui w))
      then parked w' = parked w
      else sends w w' (update_request base cid (content (ui w)))
  | Change _ | Advance _ => parked w' = parked w
  | ClickCopy =>
      exists k,
        parked w' = (parked w ++ [AwaitingWriteText (content (ui w)) k])%list
  | ClickShare =>
      exists k, parked w' = (parked w ++ [AwaitingWriteText href k])%list
  | FetchSettles n _ | WriteTextSettles n _ =>
      parked w' = remove_nth n (parked w)
  end.
Proof.
  intros Hinv Hw Hstep.
  destruct i as [d | c | | | | t | n o | n o]; unfold step in Hstep.
  - destruct (Z.leb 0 d); inversion Hstep; subst. reflexivity.
  - inversion Hstep; subst. unfold dispatch.
    rewrite exec_handleContentChange. reflexivity.
  - inversion Hstep; subst. unfold dispatch.
    rewrite exec_handleManualSave.
    destruct (saveContent_shape base cid (content (ui w))) as [k [Hexec _]].
    cbn [ui with_history]. rewrite Hexec.
    destruct (saveTimeoutRef (ui w)); cbn;
      destruct (String.eqb (content (ui w)) (lastSavedContent (ui w)));
      try reflexivity; exists k; reflexivity.
  - inversion Hstep; subst. unfold dispatch.
    destruct copyContent_shape as [k [Hexec _]]. rewrite Hexec.
    exists k. reflexivity.
  - inversion Hstep; subst. unfold dispatch.
    destruct (copyLink_shape href) as [k [Hexec _]]. rewrite Hexec.
    exists k. reflexivity.
  - destruct (find _ (timers w)) as [x |] eqn:Hfind; [| discriminate].
    destruct (Z.leb (timer_due x) (now w)) eqn:Hdue; inversion Hstep; subst.
    apply find_some in Hfind. destruct Hfind as [Hin Hid].
    apply Nat.eqb_eq in Hid. apply Z.leb_le in Hdue.
    exists x. split; [exact Hin |]. split; [exact Hid |]. split; [exact Hdue |].
    unfold dispatch.
    destruct (timer_cb x) as [c | |] eqn:Hcb; cbn [run_callback].
    + split; [reflexivity |]. split.
      * pose proof (inv_save Hinv) as Hsave. rewrite Forall_forall in Hsave.
        destruct (Hsave x Hin) as [_ [t0 [c0 [Hlast [Hc0 Ht0]]]]].
        { rewrite Hcb. reflexivity. }
        rewrite Hcb in Hc0. inversion Hc0; subst c0.
        exists t0. split; [assumption | lia].
      * destruct (saveContent_shape base cid c) as [k [Hexec _]].
        rewrite Hexec. cbn.
        destruct (String.eqb c (lastSavedContent (ui w)));
          [reflexivity | exists k; reflexivity].
    + reflexivity.
    + reflexivity.
  - destruct (nth_error (parked w) n) as [[r k | x k] |] eqn:Hn;
      inversion Hstep; subst.
    rewrite (@resume_parked w n (AwaitingFetch r k) (k o) Hw Hn);
      [reflexivity | exists o; reflexivity].
  - destruct (nth_error (parked w) n) as [[r k | x k] |] eqn:Hn;
      inversion Hstep; subst.
    rewrite (@resume_parked w n (AwaitingWriteText x k) (k o) Hw Hn);
      [reflexivity | exists o; reflexivity].
Qed.

(** C1.  In every run of a mounted editor, whatever was typed, clicked or
    answered before: at most one save timer is pending.  An edit clears the
    timer [saveTimeoutRef] names, sets one for 1500 ms later that will call
    [saveContent] with the text of that edit, records the text and
    [hasChanges], and does nothing else: it parks nothing and leaves
    [isSaving] alone, so the one save timer pending after it is its own.
    Every timer that started a save, in the record of the run, fired at
    least 1500 ms after the most recent edit before it and saved the text of
    that edit.  In the next turn, the PUT request of [saveContent] is sent
    only by a save timer that is due, at least 1500 ms after the most recent
    edit, for the text of that edit and only when it differs from the text
    last saved, or by a click on Save; no other turn sends a request. *)
Theorem autosave_debounced :
  forall (API_BASE_URL clipboardId href : string) (inputs : list Input)
         (w : World),
    steps API_BASE_URL clipboardId href inputs
      (mounted API_BASE_URL clipboardId) = Some w ->
    (List.length (save_timers w) <= 1)%nat /\
    (forall c,
        step API_BASE_URL clipboardId href (Change c) w =
        Some {| ui := with_saveTimeoutRef (Some (next_timer w))
                     (with_hasChanges
                        (negb (String.eqb c (lastSavedContent (ui w))))
                        (with_content c (ui w)));
                now := now w;
                timers := kept_timers w ++
                          [{| timer_id := next_timer w;
                              timer_due := now w + 1500;
                              timer_cb := CbSaveContent c |}];
                next_timer := S (next_timer w);
                toasts := toasts w;
                parked := parked w;
                history := (now w, DChange c) :: history w |} /\
        save_timers (exec (handleContentChange c) w) =
        [{| timer_id := next_timer w; timer_due := now w + 1500;
            timer_cb := CbSaveContent c |}]) /\
    (forall h1 t i c h2,
        history w = (h1 ++ (t, DTimer i (CbSaveContent c)) :: h2)%list ->
        run_callback API_BASE_URL clipboardId (CbSaveContent c) =
          saveContent API_BASE_URL clipboardId c /\
        exists t0, last_change h2 = Some (t0, c) /\ (t0 + 1500 <= t)%Z) /\
    (forall i w',
        step API_BASE_URL clipboardId href i w = Some w' ->
        match i with
        | TimerFires t =>
            exists x,
              In x (timers w) /\ timer_id x = t /\ (timer_due x <= now w)%Z /\
              match timer_cb x with
              | CbSaveContent c =>
                  run_callback API_BASE_URL clipboardId (timer_cb x) =
                    saveContent API_BASE_URL clipboardId c /\
                  (exists t0,
                      last_change (history w) = Some (t0, c) /\
                      (t0 + 1500 <= now w)%Z) /\
                  if String.eqb c (lastSavedContent (ui w))
                  then parked w' = parked w
                  else sends w w' (update_request API_BASE_URL clipboardId c)
              | _ => parked w' = parked w
              end
        | ClickSave =>
            if String.eqb (content (ui w)) (lastSavedContent (ui w))
            then parked w' = parked w
            else sends w w'
                   (update_request API_BASE_URL clipboardId (content (ui w)))
        | Change _ | Advance _ => parked w' = parked w
        | ClickCopy =>
            exists k,
              parked w' =
              (parked w ++ [AwaitingWriteText (content (ui w)) k])%list
        | ClickShare =>
            exists k, parked w' = (parked w ++ [AwaitingWriteText href k])%list
        | FetchSettles n _ | WriteTextSettles n _ =>
            parked w' = remove_nth n (parked w)
        end).
Proof.
  intros base cid href inputs w Hrun.
  assert (Hw : Inv w).
  { eapply Inv_steps; [apply Inv_mounted | exact Hrun]. }
  assert (Hc : Calm w).
  { eapply Calm_steps; [apply Calm_mounted | exact Hrun]. }
  split; [| split; [| split]].
  - apply Inv_one_save_timer. assumption.
  - intro c. split.
    + unfold step, dispatch. rewrite exec_handleContentChange. reflexivity.
    + apply save_timers_handleContentChange. assumption.
  - intros h1 t i c h2 Hh. split; [reflexivity |].
    pose proof (inv_history Hw) as Hd. rewrite Hh in Hd.
    apply debounced_entry in Hd. exact Hd.
  - intros i w' Hstep.
    exact (@step_parks base cid href i w w' Hw Hc Hstep).
Qed.

(** In [example_session] the one timer left fires 1.5 s after the second
    edit and sends what that edit typed. *)
Lemma autosave_debounced_witness :
  exists w w',
    steps "https://clip.example" "abc" "https://app.example/abc"
      (example_load ++
       [Change "hello!"; Advance 1000; Change "hello!!"; Advance 1500])
      (mounted "https://clip.example" "abc") = Some w /\
    step "https://clip.example" "abc" "https://app.example/abc"
      (TimerFires 2) w = Some w' /\
    List.length (save_timers w) = 1%nat /\
    last_change (history w) = Some (1000%Z, "hello!!") /\
    sends w w' (update_request "https://clip.example" "abc" "hello!!").
Proof.
  eassert (Hrun : steps "https://clip.example" "abc" "https://app.example/abc"
                    (example_load ++
                     [Change "hello!"; Advance 1000; Change "hello!!";
                      Advance 1500])
                    (mounted "https://clip.example" "abc") = Some _).
  { vm_compute. reflexivity. }
  match type of Hrun with
  | _ = Some ?w =>
      eassert (Hstep : step "https://clip.example" "abc"
                         "https://app.example/abc" (TimerFires 2) w = Some _)
  end.
  { vm_compute. reflexivity. }
  destruct (@autosave_debounced _ _ _ _ _ Hrun) as [_ [_ [_ H]]].
  destruct (H _ _ Hstep) as [x [Hin [_ [_ Hx]]]].
  destruct Hin as [Hx0 | []]. subst x. cbn in Hx.
  eexists. eexists.
  split; [exact Hrun | split; [exact Hstep | split; [reflexivity |]]].
  split; [reflexivity | exact (proj2 (proj2 Hx))].
Defined.

(** ** After the first fetch *)

(** X6.  For a fixed [clipboardId]: once the first fetch has settled, no
    turn of the loop changes the screen shown (editor or error page) or the
    error state, the editor never shows the loading screen again, and the
    text changes only when the user types: saves, their answers, copies and
    timers leave it as it is. *)
Theorem loaded_page_is_stable :
  forall (API_BASE_URL clipboardId href : string) (inputs : list Input)
         (w : World) (i : Input) (w' : World),
    steps API_BASE_URL clipboardId href inputs
      (mounted API_BASE_URL clipboardId) = Some w ->
    isLoading (ui w) = false ->
    step API_BASE_URL clipboardId href i w = Some w' ->
    screen (ui w') = screen (ui w) /\
    error (ui w') = error (ui w) /\
    match i with
    | Change c => content (ui w') = c
    | _ => content (ui w') = content (ui w)
    end.
Proof.
  intros base cid href inputs w i w' Hrun HL Hstep.
  assert (Hw : Calm w).
  { eapply Calm_steps; [apply Calm_mounted | exact Hrun]. }
  destruct (@step_facts base cid href i w w' Hw Hstep) as [_ [H _]].
  destruct (H HL) as [HL' [HE HC]].
  split; [| split].
  - unfold screen. rewrite HL, HL', HE. reflexivity.
  - exact HE.
  - destruct i; try (apply HC; discriminate).
    unfold step in Hstep. inversion Hstep; subst.
    unfold dispatch. rewrite exec_handleContentChange. reflexivity.
Qed.


(** ** Saving by hand and by timer *)

Lemma timers_saveContent (base cid c : string) (w : World) :
  timers (exec (saveContent base cid c) w) = timers w.
Proof.
  destruct (saveContent_shape base cid c) as [k [Hexec _]]. rewrite Hexec.
  destruct (String.eqb c (lastSavedContent (ui w))); reflexivity.
Qed.

(** X8.  [handleManualSave] cancels the pending auto-save: right after a
    Save click no save timer is pending, the other timers are all kept, and
    when the text is the one last saved the click sends nothing. *)
Theorem manual_save_cancels_autosave :
  forall (API_BASE_URL clipboardId href : string) (inputs : list Input)
         (w w' : World),
    steps API_BASE_URL clipboardId href inputs
      (mounted API_BASE_URL clipboardId) = Some w ->
    step API_BASE_URL clipboardId href ClickSave w = Some w' ->
    save_timers w' = [] /\
    timers w' = kept_timers w /\
    (content (ui w) = lastSavedContent (ui w) -> parked w' = parked w).
Proof.
  intros base cid href inputs w w' Hrun Hstep.
  assert (Hw : Inv w).
  { eapply Inv_steps; [apply Inv_mounted | exact Hrun]. }
  unfold step in Hstep. inversion Hstep; subst. clear Hstep.
  unfold dispatch. rewrite exec_handleManualSave.
  cbn [ui timers with_history].
  assert (Ht : timers
                 (exec (saveContent base cid (content (ui w)))
                    match saveTimeoutRef (ui w) with
                    | Some t =>
                        with_timers (clear_timer t (timers w))
                          (with_history
                             ((now w, DClickSave (content (ui w))) :: history w) w)
                    | None =>
                        with_history
                          ((now w, DClickSave (content (ui w))) :: history w) w
                    end) = kept_timers w).
  { rewrite timers_saveContent. unfold kept_timers.
    destruct (saveTimeoutRef (ui w)); reflexivity. }
  split; [| split].
  - unfold save_timers. rewrite Ht. apply kept_timers_no_save. exact Hw.
  - exact Ht.
  - intro Heq.
    destruct (saveContent_shape base cid (content (ui w))) as [k [Hexec _]].
    rewrite Hexec.
    destruct (saveTimeoutRef (ui w)); cbn; rewrite Heq, String.eqb_refl;
      reflexivity.
Qed.

(** X9.  Typing the text back to what was last saved clears [hasChanges],
    and when the timer of that edit fires (1.5 s or more later, with nothing
    else happening in between) [saveContent] sends no request: nothing new
    is parked and no save timer is left. *)
Theorem restoring_saved_text_sends_nothing :
  forall (API_BASE_URL clipboardId href : string) (inputs : list Input)
         (w : World) (d : Z),
    steps API_BASE_URL clipboardId href inputs
      (mounted API_BASE_URL clipboardId) = Some w ->
    (1500 <= d)%Z ->
    exists w',
      steps API_BASE_URL clipboardId href
        [Change (lastSavedContent (ui w)); Advance d; TimerFires (next_timer w)]
        w = Some w' /\
      parked w' = parked w /\
      content (ui w') = lastSavedContent (ui w) /\
      lastSavedContent (ui w') = lastSavedContent (ui w) /\
      hasChanges (ui w') = false /\
      isSaving (ui w') = isSaving (ui w) /\
      save_timers w' = [].
Proof.
  intros base cid href inputs w d Hrun Hd.
  assert (Hw : Inv w).
  { eapply Inv_steps; [apply Inv_mounted | exact Hrun]. }
  pose proof (kept_timers_fresh Hw) as Hfresh.
  pose proof (kept_timers_no_save Hw) as Hnone.
  set (c := lastSavedContent (ui w)).
  eexists. cbn [steps].
  unfold step at 1. unfold dispatch at 1. rewrite exec_handleContentChange.
  cbn [ui now timers next_timer toasts parked history with_history].
  fold (kept_timers w).
  rewrite step_Advance by lia.
  erewrite (@step_TimerFires_last base cid href _ (kept_timers w)
              {| timer_id := next_timer w; timer_due := now w + 1500;
                 timer_cb := CbSaveContent c |});
    [| reflexivity | exact Hfresh | cbn; lia].
  cbn [timer_id timer_cb run_callback].
  unfold dispatch.
  destruct (saveContent_shape base cid c) as [k [Hexec _]]. rewrite Hexec.
  cbn. unfold c. rewrite !String.eqb_refl. cbn.
  repeat split. unfold save_timers. cbn. exact Hnone.
Qed.

(** ** What the page shows after the first fetch *)

(** X4.  When the first fetch is answered ok with a clipboard [data], the
    editor shows [data.content] with [lastSavedContent] equal to it, the
    editor screen, "All changes saved" and a disabled Save button; running
    [handleManualSave] then changes nothing and sends nothing. *)
Theorem loaded_editor_has_nothing_to_save :
  forall (API_BASE_URL clipboardId href : string)
         (r : Response Api.Clipboard) (data : Api.Clipboard),
    ok r = true ->
    json r = Returns data ->
    exists w1,
      page_step API_BASE_URL clipboardId href (FetchSettles 0 (Returns r))
        (mounted API_BASE_URL clipboardId) = Some w1 /\
      ui w1 = {| content := Api.content data;
                 clipboard := Some data;
                 isLoading := false;
                 isSaving := false;
                 hasChanges := false;
                 copiedContent := false;
                 copiedLink := false;
                 error := None;
                 saveTimeoutRef := None;
                 lastSavedContent := Api.content data |} /\
      screen (ui w1) = EditorScreen /\
      saveStatus (ui w1) = "All changes saved" /\
      offered ClickSave w1 = false /\
      exec (handleManualSave API_BASE_URL clipboardId) w1 = w1 /\
      parked w1 = [] /\ timers w1 = [] /\ toasts w1 = [].
Proof.
  intros base cid href r data Hok Hjson.
  destruct (fetchClipboard_shape base cid) as [k [Hexec [_ [Hdone _]]]].
  destruct (saveContent_shape base cid (Api.content data)) as [ks [Hsave _]].
  eexists. split.
  - unfold page_step. cbn [offered]. unfold mounted, dispatch.
    rewrite Hexec. cbn [step parked with_parked with_ui with_history initial
                        app nth_error remove_nth].
    rewrite (Hdone r data _ Hok Hjson). reflexivity.
  - split; [reflexivity |]. split; [reflexivity |].
    split; [reflexivity |]. split; [reflexivity |].
    split; [| repeat split].
    rewrite exec_handleManualSave. cbn [ui with_ui saveTimeoutRef
      with_isLoading with_lastSavedContent with_content with_clipboard
      with_parked with_history initial content].
    rewrite Hsave. cbn. rewrite String.eqb_refl. reflexivity.
Qed.

(** X5.  When [getClipboard] throws during the first fetch, the error state
    is the message of the error (or "Failed to load clipboard" for a thrown
    value that is not an Error), the text and the clipboard record stay
    empty, and the error page is shown exactly when that message is not
    empty (as for every response that is not ok); with an empty message
    [if (error)] is false and the empty editor is shown. *)
Theorem failed_load_shows_error_page :
  forall (API_BASE_URL clipboardId href : string)
         (o : FetchOutcome Api.Clipboard) (e : Thrown),
    result_of (fun _ => o) (Api.getClipboard API_BASE_URL clipboardId)
      = Throws e ->
    exists w1,
      page_step API_BASE_URL clipboardId href (FetchSettles 0 o)
        (mounted API_BASE_URL clipboardId) = Some w1 /\
      ui w1 = with_isLoading false
                (with_error (Some (message_or e "Failed to load clipboard"))
                   (ui initial)) /\
      screen (ui w1) =
        match message_or e "Failed to load clipboard" with
        | EmptyString => EditorScreen
        | String _ _ => ErrorScreen
        end /\
      (forall r, o = Returns r -> ok r = false -> screen (ui w1) = ErrorScreen) /\
      (e = NonError -> screen (ui w1) = ErrorScreen) /\
      parked w1 = [] /\ timers w1 = [] /\ toasts w1 = [].
Proof.
  intros base cid href o e He.
  destruct (fetchClipboard_shape base cid) as [k [Hexec [_ [_ Hfail]]]].
  eexists. split.
  - unfold page_step. cbn [offered]. unfold mounted, dispatch.
    rewrite Hexec. cbn [step parked with_parked with_ui with_history initial
                        app nth_error remove_nth].
    rewrite (Hfail o e _ He). reflexivity.
  - cbn. split; [reflexivity |]. split; [| split; [| split]].
    + unfold screen. cbn. destruct (message_or e _); reflexivity.
    + intros r Ho Hok. subst o. unfold result_of in He.
      rewrite run_getClipboard in He. cbn in He. rewrite Hok in He.
      destruct (Z.eqb (status r) 404); inversion He; subst; reflexivity.
    + intro Hn. subst e. reflexivity.
    + repeat split.
Qed.

(** ** Copying *)

(** X3.  [copyContent] asks the browser to write the current text,
    [copyLink] to write [window.location.href], and both change nothing
    more before the answer.  On success the rest sets the copied flag, sets
    a timer 2000 ms ahead whose callback only clears that flag, and shows
    the success toast; on failure it only adds a destructive toast.  Text,
    saved text, save flags, pending timers and parked requests are left
    alone throughout. *)
Theorem copy_outcomes :
  forall (API_BASE_URL clipboardId href : string) (w : World),
    exists kc kl,
      exec copyContent w =
        with_parked (parked w ++ [AwaitingWriteText (content (ui w)) kc]) w /\
      exec (copyLink href) w =
        with_parked (parked w ++ [AwaitingWriteText href kl]) w /\
      (forall w2,
          exec (kc (Returns tt)) w2 =
          copied with_copiedContent CbResetCopiedContent
            {| title := "Copied!";
               description := "Content copied to clipboard";
               variant := None |} w2 /\
          exec (kl (Returns tt)) w2 =
          copied with_copiedLink CbResetCopiedLink
            {| title := "Link copied!";
               description := "Share this link with anyone";
               variant := None |} w2) /\
      (forall e w2,
          exec (kc (Throws e)) w2 =
          with_toasts
            (toasts w2 ++ [{| title := "Failed to copy";
                              description := "Could not copy to clipboard";
                              variant := Some "destructive" |}]) w2 /\
          exec (kl (Throws e)) w2 =
          with_toasts
            (toasts w2 ++ [{| title := "Failed to copy";
                              description := "Could not copy link";
                              variant := Some "destructive" |}]) w2) /\
      (forall w2,
          exec (run_callback API_BASE_URL clipboardId CbResetCopiedContent) w2 =
            with_ui (with_copiedContent false (ui w2)) w2 /\
          exec (run_callback API_BASE_URL clipboardId CbResetCopiedLink) w2 =
            with_ui (with_copiedLink false (ui w2)) w2).
Proof.
  intros base cid href w.
  destruct copyContent_shape as [kc [Hc [_ [Hc_ok Hc_fail]]]].
  destruct (copyLink_shape href) as [kl [Hl [_ [Hl_ok Hl_fail]]]].
  exists kc, kl. repeat split; auto.
Qed.

Lemma screen_editor (s : EditorState) :
  screen s = EditorScreen ->
  isLoading s = false /\ truthy (error s) = false.
Proof.
  unfold screen. destruct (isLoading s); [discriminate |].
  destruct (truthy (error s)); [discriminate | auto].
Qed.

(** ** Turns of the page, spelled out *)

Lemma page_steps_cons (base cid href : string) (i : Input) (l : list Input)
    (w w1 w' : World) :
  page_step base cid href i w = Some w1 ->
  page_steps base cid href l w1 = Some w' ->
  page_steps base cid href (i :: l) w = Some w'.
Proof.
  intros H1 H2. cbn [page_steps]. rewrite H1. exact H2.
Qed.

Lemma page_step_Change (base cid href c : string) (w : World) :
  screen (ui w) = EditorScreen ->
  page_step base cid href (Change c) w =
  Some {| ui := with_saveTimeoutRef (Some (next_timer w))
               (with_hasChanges (negb (String.eqb c (lastSavedContent (ui w))))
                  (with_content c (ui w)));
          now := now w;
          timers := kept_timers w ++
                    [{| timer_id := next_timer w; timer_due := now w + 1500;
                        timer_cb := CbSaveContent c |}];
          next_timer := S (next_timer w);
          toasts := toasts w;
          parked := parked w;
          history := (now w, DChange c) :: history w |}.
Proof.
  intro Hscr. unfold page_step, offered. rewrite Hscr.
  unfold step, dispatch. rewrite exec_handleContentChange. reflexivity.
Qed.

Lemma page_step_Advance (base cid href : string) (d : Z) (w : World) :
  (0 <= d)%Z ->
  page_step base cid href (Advance d) w = Some (with_now (now w + d) w).
Proof.
  intro Hd. unfold page_step. cbn [offered]. apply step_Advance. exact Hd.
Qed.

Lemma page_step_TimerFires_last (base cid href : string) (w : World)
    (l : list Timer) (n : TimerId) (due : Z) (cb : Callback) :
  timers w = (l ++ [{| timer_id := n; timer_due := due; timer_cb := cb |}])%list ->
  Forall (fun y => timer_id y < n)%nat l ->
  (due <= now w)%Z ->
  page_step base cid href (TimerFires n) w =
  Some (dispatch (DTimer n cb) (run_callback base cid cb) (with_timers l w)).
Proof.
  intros Ht Hl Hdue. unfold page_step. cbn [offered].
  apply (@step_TimerFires_last base cid href w l
           {| timer_id := n; timer_due := due; timer_cb := cb |} Ht Hl Hdue).
Qed.

Lemma page_step_FetchSettles_last (base cid href : string) (w : World)
    (l : list Parked) (r : Request) (k : FetchOutcome Api.Clipboard -> Task unit)
    (o : FetchOutcome Api.Clipboard) :
  parked w = (l ++ [AwaitingFetch r k])%list ->
  page_step base cid href (FetchSettles (List.length l) o) w =
  Some (exec (k o) (with_parked l w)).
Proof.
  intro Hp. unfold page_step. cbn [offered].
  apply (@step_FetchSettles_last base cid href w l r k o Hp).
Qed.

Lemma kept_timers_known (w : World) (n : TimerId) :
  saveTimeoutRef (ui w) = Some n ->
  Forall (fun y => timer_id y < n)%nat (timers w) ->
  kept_timers w = timers w.
Proof.
  intros Href Hfresh. unfold kept_timers. rewrite Href.
  apply (@clear_timer_fresh n (timers w) Hfresh).
Qed.

#[local] Arguments page_steps : simpl never.
#[local] Arguments kept_timers : simpl never.
#[local] Arguments clear_timer : simpl never.
#[local] Arguments update_request : simpl never.
#[local] Arguments saveContent : simpl never.
#[local] Arguments screen : simpl never.

(** X10.  [saveContent] compares with [lastSavedContent] as it is when the
    timer fires.  So when the user types [b], the auto-save of [b] is still
    unanswered, the user types the saved text [a] again and its timer fires
    (a no-op), and only then the save of [b] is answered ok, the editor ends
    with the text [a], [lastSavedContent] [b], [hasChanges] false ("All
    changes saved", Save disabled), no save timer and nothing more parked
    than before. *)
Theorem slow_save_leaves_stale_text :
  forall (API_BASE_URL clipboardId href : string) (inputs : list Input)
         (w : World) (b : string) (d1 d2 : Z)
         (r : Response Api.Clipboard) (data : Api.Clipboard),
    page_steps API_BASE_URL clipboardId href inputs
      (mounted API_BASE_URL clipboardId) = Some w ->
    screen (ui w) = EditorScreen ->
    b <> lastSavedContent (ui w) ->
    (1500 <= d1)%Z -> (1500 <= d2)%Z ->
    ok r = true -> json r = Returns data ->
    exists w',
      page_steps API_BASE_URL clipboardId href
        [Change b; Advance d1; TimerFires (next_timer w);
         Change (lastSavedContent (ui w)); Advance d2;
         TimerFires (S (next_timer w));
         FetchSettles (List.length (parked w)) (Returns r)]
        w = Some w' /\
      content (ui w') = lastSavedContent (ui w) /\
      lastSavedContent (ui w') = b /\
      clipboard (ui w') = Some data /\
      hasChanges (ui w') = false /\
      saveStatus (ui w') = "All changes saved" /\
      saveDisabled (ui w') = true /\
      save_timers w' = [] /\
      parked w' = parked w.
Proof.
  intros base cid href inputs w b d1 d2 r data Hrun Hscr Hb Hd1 Hd2 Hok Hjson.
  destruct (@page_steps_facts base cid href inputs _ w
              (Calm_mounted base cid) (PageOK_mounted base cid) Hrun)
    as [_ [_ Hsteps]].
  assert (Hw : Inv w).
  { eapply Inv_steps; [apply Inv_mounted | exact Hsteps]. }
  pose proof (kept_timers_fresh Hw) as Hfresh.
  pose proof (kept_timers_no_save Hw) as Hnone.
  destruct (@screen_editor (ui w) Hscr) as [HL HE].
  apply String.eqb_neq in Hb.
  set (a := lastSavedContent (ui w)) in *.
  destruct (saveContent_shape base cid b) as [kb [Hexec_b [_ [Hok_b _]]]].
  destruct (saveContent_shape base cid a) as [ka [Hexec_a _]].
  eexists. split.
  - (* the user types b *)
    eapply page_steps_cons; [apply page_step_Change; exact Hscr |].
    (* 1.5 s pass and the timer saves b *)
    eapply page_steps_cons; [apply page_step_Advance; lia |].
    eapply page_steps_cons.
    { eapply page_step_TimerFires_last;
        [reflexivity | exact Hfresh | cbn; lia]. }
    unfold dispatch. cbn [run_callback]. rewrite Hexec_b. cbn. fold a.
    rewrite Hb. cbn.
    (* the user types a again *)
    eapply page_steps_cons.
    { apply page_step_Change. unfold screen. cbn. rewrite HL, HE. reflexivity. }
    match goal with
    | |- context [kept_timers (with_parked ?p ?x)] =>
        rewrite (@kept_timers_known (with_parked p x) (next_timer w));
          [| reflexivity | exact Hfresh]
    end.
    cbn. fold a. rewrite String.eqb_refl. cbn.
    (* 1.5 s pass and the timer finds nothing to save *)
    eapply page_steps_cons; [apply page_step_Advance; lia |].
    eapply page_steps_cons.
    { eapply page_step_TimerFires_last;
        [reflexivity
        | eapply Forall_impl; [| exact Hfresh]; cbn; intros; lia
        | cbn; lia]. }
    unfold dispatch. cbn [run_callback]. rewrite Hexec_a. cbn. fold a.
    rewrite String.eqb_refl.
    (* the answer to the first save arrives *)
    eapply page_steps_cons.
    { eapply page_step_FetchSettles_last. reflexivity. }
    rewrite (Hok_b r data _ Hok Hjson). cbn.
    unfold page_steps. reflexivity.
  - cbn. repeat split. unfold save_timers. cbn. exact Hnone.
Qed.

(** X11.  The whole auto-save, on the page: the user types a text [b] that
    differs from the saved one, 1.5 s or more pass, the timer fires and the
    PUT request for [b] is sent while the page says "Saving..."; when it is
    answered ok with [data], the editor ends with the text [b] saved
    ([lastSavedContent] is [b]), the clipboard record [data], "All changes
    saved", a disabled Save button, no save timer, no new toast and nothing
    more parked than before. *)
Theorem autosave_round_trip :
  forall (API_BASE_URL clipboardId href : string) (inputs : list Input)
         (w : World) (b : string) (d : Z)
         (r : Response Api.Clipboard) (data : Api.Clipboard),
    page_steps API_BASE_URL clipboardId href inputs
      (mounted API_BASE_URL clipboardId) = Some w ->
    screen (ui w) = EditorScreen ->
    b <> lastSavedContent (ui w) ->
    (1500 <= d)%Z ->
    ok r = true -> json r = Returns data ->
    exists k w3 w',
      page_steps API_BASE_URL clipboardId href
        [Change b; Advance d; TimerFires (next_timer w)] w = Some w3 /\
      parked w3 =
        (parked w ++
         [AwaitingFetch (update_request API_BASE_URL clipboardId b) k])%list /\
      saveStatus (ui w3) = "Saving..." /\
      page_step API_BASE_URL clipboardId href
        (FetchSettles (List.length (parked w)) (Returns r)) w3 = Some w' /\
      content (ui w') = b /\
      lastSavedContent (ui w') = b /\
      clipboard (ui w') = Some data /\
      saveStatus (ui w') = "All changes saved" /\
      saveDisabled (ui w') = true /\
      save_timers w' = [] /\
      toasts w' = toasts w /\
      parked w' = parked w.
Proof.
  intros base cid href inputs w b d r data Hrun Hscr Hb Hd Hok Hjson.
  destruct (@page_steps_facts base cid href inputs _ w
              (Calm_mounted base cid) (PageOK_mounted base cid) Hrun)
    as [_ [_ Hsteps]].
  assert (Hw : Inv w).
  { eapply Inv_steps; [apply Inv_mounted | exact Hsteps]. }
  pose proof (kept_timers_fresh Hw) as Hfresh.
  pose proof (kept_timers_no_save Hw) as Hnone.
  apply String.eqb_neq in Hb.
  destruct (saveContent_shape base cid b) as [kb [Hexec_b [_ [Hok_b _]]]].
  exists kb. eexists. eexists. split; [| split; [| split; [| split]]].
  - eapply page_steps_cons; [apply page_step_Change; exact Hscr |].
    eapply page_steps_cons; [apply page_step_Advance; lia |].
    eapply page_steps_cons.
    { eapply page_step_TimerFires_last;
        [reflexivity | exact Hfresh | cbn; lia]. }
    unfold dispatch. cbn [run_callback]. rewrite Hexec_b. cbn.
    rewrite Hb. cbn. unfold page_steps. reflexivity.
  - reflexivity.
  - reflexivity.
  - eapply page_step_FetchSettles_last. reflexivity.
  - rewrite (Hok_b r data _ Hok Hjson). cbn.
    repeat split. unfold save_timers. cbn. exact Hnone.
Qed.

(** X12.  A failed save is reported once and not retried by itself: when
    the PUT request of an auto-save ends in an error, the editor shows one
    destructive toast with the error's message and keeps the text,
    [lastSavedContent] and [hasChanges] (true); no save timer is pending, so
    nothing is sent again until the user acts.  The Save button is enabled,
    and clicking it sends the PUT request for the same text again. *)
Theorem failed_save_is_not_retried :
  forall (API_BASE_URL clipboardId href : string) (inputs : list Input)
         (w : World) (b : string) (d : Z)
         (o : FetchOutcome Api.Clipboard) (e : Thrown),
    page_steps API_BASE_URL clipboardId href inputs
      (mounted API_BASE_URL clipboardId) = Some w ->
    screen (ui w) = EditorScreen ->
    b <> lastSavedContent (ui w) ->
    (1500 <= d)%Z ->
    result_of (fun _ => o)
      (Api.updateClipboard API_BASE_URL clipboardId b) = Throws e ->
    exists w' k w'',
      page_steps API_BASE_URL clipboardId href
        [Change b; Advance d; TimerFires (next_timer w);
         FetchSettles (List.length (parked w)) o] w = Some w' /\
      toasts w' =
        (toasts w ++
         [{| title := "Failed to save";
             description := message_or e "Could not save changes";
             variant := Some "destructive" |}])%list /\
      content (ui w') = b /\
      lastSavedContent (ui w') = lastSavedContent (ui w) /\
      clipboard (ui w') = clipboard (ui w) /\
      saveStatus (ui w') = "Unsaved changes" /\
      save_timers w' = [] /\
      parked w' = parked w /\
      page_step API_BASE_URL clipboardId href ClickSave w' = Some w'' /\
      parked w'' =
        (parked w ++
         [AwaitingFetch (update_request API_BASE_URL clipboardId b) k])%list.
Proof.
  intros base cid href inputs w b d o e Hrun Hscr Hb Hd Hfail.
  destruct (@page_steps_facts base cid href inputs _ w
              (Calm_mounted base cid) (PageOK_mounted base cid) Hrun)
    as [_ [_ Hsteps]].
  assert (Hw : Inv w).
  { eapply Inv_steps; [apply Inv_mounted | exact Hsteps]. }
  pose proof (kept_timers_fresh Hw) as Hfresh.
  pose proof (kept_timers_no_save Hw) as Hnone.
  destruct (@screen_editor (ui w) Hscr) as [HL HE].
  apply String.eqb_neq in Hb.
  destruct (saveContent_shape base cid b) as [kb [Hexec_b [_ [_ Hfail_b]]]].
  eexists. exists kb. eexists. split.
  - eapply page_steps_cons; [apply page_step_Change; exact Hscr |].
    eapply page_steps_cons; [apply page_step_Advance; lia |].
    eapply page_steps_cons.
    { eapply page_step_TimerFires_last;
        [reflexivity | exact Hfresh | cbn; lia]. }
    unfold dispatch. cbn [run_callback]. rewrite Hexec_b. cbn.
    rewrite Hb. cbn.
    eapply page_steps_cons.
    { eapply page_step_FetchSettles_last. reflexivity. }
    rewrite (Hfail_b o e _ Hfail). cbn. unfold page_steps. reflexivity.
  - cbn. split; [reflexivity |]. split; [reflexivity |].
    split; [reflexivity |]. split; [reflexivity |]. split; [reflexivity |].
    split; [unfold save_timers; cbn; exact Hnone |].
    split; [reflexivity |]. split.
    + unfold page_step, offered, screen, saveDisabled. cbn.
      rewrite HL, HE. cbn. reflexivity.
    + rewrite Hexec_b. cbn. rewrite Hb. reflexivity.
Qed.

(** ** The further properties on concrete sessions *)

Lemma loaded_page_is_stable_witness :
  exists w w',
    steps "https://clip.example" "abc" "https://app.example/abc"
      example_load (mounted "https://clip.example" "abc") = Some w /\
    step "https://clip.example" "abc" "https://app.example/abc" ClickCopy w
      = Some w' /\
    screen (ui w') = screen (ui w) /\
    error (ui w') = error (ui w) /\
    content (ui w') = content (ui w).
Proof.
  eassert (Hrun : steps "https://clip.example" "abc" "https://app.example/abc"
                    example_load (mounted "https://clip.example" "abc")
                  = Some _).
  { vm_compute. reflexivity. }
  eassert (Hstep : step "https://clip.example" "abc" "https://app.example/abc"
                     ClickCopy _ = Some _).
  { vm_compute. reflexivity. }
  eexists. eexists. split; [exact Hrun | split; [exact Hstep |]].
  exact (@loaded_page_is_stable _ _ _ _ _ ClickCopy _ Hrun eq_refl Hstep).
Defined.


Lemma manual_save_cancels_autosave_witness :
  exists w w',
    steps "https://clip.example" "abc" "https://app.example/abc"
      (example_load ++ [Change "hello!"])
      (mounted "https://clip.example" "abc") = Some w /\
    step "https://clip.example" "abc" "https://app.example/abc" ClickSave w
      = Some w' /\
    List.length (save_timers w) = 1%nat /\
    save_timers w' = [].
Proof.
  eassert (Hrun : steps "https://clip.example" "abc" "https://app.example/abc"
                    (example_load ++ [Change "hello!"])
                    (mounted "https://clip.example" "abc") = Some _).
  { vm_compute. reflexivity. }
  eassert (Hstep : step "https://clip.example" "abc" "https://app.example/abc"
                     ClickSave _ = Some _).
  { vm_compute. reflexivity. }
  eexists. eexists.
  split; [exact Hrun | split; [exact Hstep | split; [reflexivity |]]].
  exact (proj1 (@manual_save_cancels_autosave _ _ _ _ _ _ Hrun Hstep)).
Defined.

Lemma restoring_saved_text_sends_nothing_witness :
  exists w w',
    steps "https://clip.example" "abc" "https://app.example/abc"
      example_load (mounted "https://clip.example" "abc") = Some w /\
    steps "https://clip.example" "abc" "https://app.example/abc"
      [Change "hello"; Advance 1500; TimerFires 1] w = Some w' /\
    parked w' = parked w.
Proof.
  eassert (Hrun : steps "https://clip.example" "abc" "https://app.example/abc"
                    example_load (mounted "https://clip.example" "abc")
                  = Some _).
  { vm_compute. reflexivity. }
  destruct (@restoring_saved_text_sends_nothing _ _ _ _ _ 1500%Z Hrun)
    as [w' [Hsteps [Hparked _]]].
  { lia. }
  eexists. exists w'. split; [exact Hrun | split; [exact Hsteps | exact Hparked]].
Defined.

Lemma slow_save_leaves_stale_text_witness :
  exists w w',
    page_steps "https://clip.example" "abc" "https://app.example/abc"
      example_load (mounted "https://clip.example" "abc") = Some w /\
    page_steps "https://clip.example" "abc" "https://app.example/abc"
      [Change "hello!"; Advance 1500; TimerFires 1; Change "hello";
       Advance 1500; TimerFires 2; FetchSettles 0 (Returns example_response)]
      w = Some w' /\
    content (ui w') = "hello" /\
    lastSavedContent (ui w') = "hello!" /\
    saveStatus (ui w') = "All changes saved".
Proof.
  eassert (Hrun : page_steps "https://clip.example" "abc"
                    "https://app.example/abc"
                    example_load (mounted "https://clip.example" "abc")
                  = Some _).
  { vm_compute. reflexivity. }
  destruct (@slow_save_leaves_stale_text _ _ _ _ _ "hello!" 1500%Z 1500%Z
              example_response example_data Hrun)
    as [w' [Hsteps [Hc [Hs [_ [_ [Hst _]]]]]]].
  { reflexivity. }
  { cbn. discriminate. }
  { lia. }
  { lia. }
  { reflexivity. }
  { reflexivity. }
  eexists. exists w'.
  split; [exact Hrun | split; [exact Hsteps | split; [exact Hc | split; [exact Hs | exact Hst]]]].
Defined.

Lemma loaded_editor_has_nothing_to_save_witness :
  exists w1,
    page_step "https://clip.example" "abc" "https://app.example/abc"
      (FetchSettles 0 (Returns example_response))
      (mounted "https://clip.example" "abc") = Some w1 /\
    content (ui w1) = "hello" /\
    offered ClickSave w1 = false.
Proof.
  destruct (@loaded_editor_has_nothing_to_save
              "https://clip.example" "abc" "https://app.example/abc"
              example_response example_data eq_refl eq_refl)
    as [w1 [Hstep [Hui [_ [_ [Hoff _]]]]]].
  exists w1. split; [exact Hstep | split; [| exact Hoff]].
  rewrite Hui. reflexivity.
Defined.

Lemma failed_load_shows_error_page_witness :
  exists w1,
    page_step "https://clip.example" "abc" "https://app.example/abc"
      (FetchSettles 0 (Throws (ErrorObj "Failed to fetch")))
      (mounted "https://clip.example" "abc") = Some w1 /\
    screen (ui w1) = ErrorScreen.
Proof.
  destruct (@failed_load_shows_error_page
              "https://clip.example" "abc" "https://app.example/abc"
              (Throws (ErrorObj "Failed to fetch")) (ErrorObj "Failed to fetch")
              eq_refl)
    as [w1 [Hstep [_ [Hscr _]]]].
  exists w1. split; [exact Hstep | exact Hscr].
Defined.

Lemma autosave_round_trip_witness :
  exists w w3 w',
    page_steps "https://clip.example" "abc" "https://app.example/abc"
      example_load (mounted "https://clip.example" "abc") = Some w /\
    page_steps "https://clip.example" "abc" "https://app.example/abc"
      [Change "hello!"; Advance 1500; TimerFires 1] w = Some w3 /\
    page_step "https://clip.example" "abc" "https://app.example/abc"
      (FetchSettles 0 (Returns example_response)) w3 = Some w' /\
    lastSavedContent (ui w') = "hello!" /\
    saveStatus (ui w') = "All changes saved".
Proof.
  eassert (Hrun : page_steps "https://clip.example" "abc"
                    "https://app.example/abc"
                    example_load (mounted "https://clip.example" "abc")
                  = Some _).
  { vm_compute. reflexivity. }
  destruct (@autosave_round_trip _ _ _ _ _ "hello!" 1500%Z
              example_response example_data Hrun)
    as [k [w3 [w' [H3 [_ [_ [Hstep [_ [Hs [_ [Hst _]]]]]]]]]]].
  { reflexivity. }
  { cbn. discriminate. }
  { lia. }
  { reflexivity. }
  { reflexivity. }
  eexists. exists w3, w'.
  split; [exact Hrun | split; [exact H3 | split; [exact Hstep |]]].
  split; [exact Hs | exact Hst].
Defined.

Lemma failed_save_is_not_retried_witness :
  exists w w',
    page_steps "https://clip.example" "abc" "https://app.example/abc"
      example_load (mounted "https://clip.example" "abc") = Some w /\
    page_steps "https://clip.example" "abc" "https://app.example/abc"
      [Change "hello!"; Advance 1500; TimerFires 1;
       FetchSettles 0 (Throws (ErrorObj "Failed to fetch"))] w = Some w' /\
    toasts w' = [{| title := "Failed to save";
                    description := "Failed to fetch";
                    variant := Some "destructive" |}] /\
    save_timers w' = [].
Proof.
  eassert (Hrun : page_steps "https://clip.example" "abc"
                    "https://app.example/abc"
                    example_load (mounted "https://clip.example" "abc")
                  = Some _).
  { vm_compute. reflexivity. }
  destruct (@failed_save_is_not_retried _ _ _ _ _ "hello!" 1500%Z
              (Throws (ErrorObj "Failed to fetch")) (ErrorObj "Failed to fetch")
              Hrun)
    as [w' [k [w'' [Hsteps [Ht [_ [_ [_ [_ [Hnone _]]]]]]]]]].
  { reflexivity. }
  { cbn. discriminate. }
  { lia. }
  { reflexivity. }
  eexists. exists w'.
  split; [exact Hrun | split; [exact Hsteps | split; [exact Ht | exact Hnone]]].
Defined.
